(** * SearchAgent: the retrieval-and-rerank pipeline of [search.ts]

    A shallow embedding of the [SearchAgent] class: configuration merging,
    [computeSimilarity], [searchWeb], [getDocumentsFromUrls], [rerankDocs]
    and [search], followed by the properties the specification states
    about them.

    Conventions of the embedding.
    - A JavaScript [number] is [NaN] or an exact rational.  The code only
      compares numbers and takes the sign of a difference; on IEEE doubles
      the sign of [b - a] is the sign of the exact difference, so nothing
      the pipeline observes depends on rounding.  Infinities are left out.
    - [undefined] is [None]; an optional property is an [option].
    - A string is a [string] of 8-bit code units.
    - Effects (console output, HTTP requests, calls of the embedding model
      and of the language model) are recorded in a trace that is threaded
      through a state-and-exception monad [M]; a rejected promise and a
      thrown exception are both [Throw].
    - Imported packages ([axios], [html-to-text], the text splitter,
      [compute-dot], [compute-cosine-similarity], the WHATWG [URL] class)
      are parameters of the development. *)

From Stdlib Require Import List String Ascii Bool Arith ZArith QArith Lia.
From Stdlib Require Import Permutation Sorted DecimalString.
Import ListNotations.

Local Open Scope nat_scope.
Local Open Scope string_scope.
Local Open Scope list_scope.

(* ================================================================= *)
(** ** JavaScript values and built-ins used by the class *)

Module JS.

(** A [number]. *)
Inductive number : Type :=
| NaN : number
| Num (q : Q) : number.

(** [a > b] *)
Definition gt (a b : number) : bool :=
  match a, b with
  | Num x, Num y => match Qcompare x y with Gt => true | _ => false end
  | _, _ => false
  end.

(** [a - b] *)
Definition sub (a b : number) : number :=
  match a, b with
  | Num x, Num y => Num (x - y)
  | _, _ => NaN
  end.

(** ToBoolean of a possibly undefined number: [undefined], [NaN] and
    [0] are falsy. *)
Definition truthy (v : option number) : bool :=
  match v with
  | None => false
  | Some NaN => false
  | Some (Num q) => negb (Qeq_bool q 0)
  end.

(** [v || d] with a number on the right. *)
Definition or_else (v : option number) (d : number) : number :=
  match v with
  | Some x => if truthy v then x else d
  | None => d
  end.

(** ToBoolean of a string: only the empty string is falsy. *)
Definition str_or_else (v : option string) (d : string) : string :=
  match v with
  | Some EmptyString => d
  | Some s => s
  | None => d
  end.

(** ToIntegerOrInfinity: [NaN] becomes 0, other values are truncated
    towards zero. *)
Definition toInteger (v : number) : Z :=
  match v with
  | NaN => 0%Z
  | Num q => Z.quot (Qnum q) (Zpos (Qden q))
  end.

(** [arr[i]] *)
Definition index {A} (arr : list A) (i : nat) : option A := nth_error arr i.

(** [arr.map((x, i) => f x i)], the positions counted from [i]. *)
Fixpoint mapi_from {A B} (f : A -> nat -> B) (i : nat) (arr : list A) : list B :=
  match arr with
  | [] => []
  | x :: rest => f x i :: mapi_from f (S i) rest
  end.

(** [arr.slice(0, end)]: an [undefined] end is the length, a negative
    end counts from the back, the result is clamped to the array. *)
Definition slice0 {A} (finish : option number) (arr : list A) : list A :=
  match finish with
  | None => arr
  | Some v =>
      let e := toInteger v in
      if (e <? 0)%Z
      then firstn (Z.to_nat (Z.max (Z.of_nat (List.length arr) + e) 0)) arr
      else firstn (Z.to_nat e) arr
  end.

(** [arr.sort(comparefn)].  The sort is stable; [comparefn x y > 0]
    places [x] after [y], and a [NaN] or zero answer leaves the pair in
    its order.  Insertion from the right realises this for every
    consistent comparator. *)
Fixpoint insert {A} (comparefn : A -> A -> number) (x : A) (sorted : list A) : list A :=
  match sorted with
  | [] => [x]
  | y :: rest =>
      if gt (comparefn x y) (Num 0)
      then y :: insert comparefn x rest
      else x :: sorted
  end.

Fixpoint sort {A} (comparefn : A -> A -> number) (arr : list A) : list A :=
  match arr with
  | [] => []
  | x :: rest => insert comparefn x (sort comparefn rest)
  end.

(** [arr.join(sep)] on an array of strings. *)
Fixpoint join (sep : string) (arr : list string) : string :=
  match arr with
  | [] => ""
  | [s] => s
  | s :: rest => (s ++ sep ++ join sep rest)%string
  end.

(** The decimal rendering of a non-negative integer in a template
    literal. *)
Definition natToString (n : nat) : string :=
  NilZero.string_of_uint (Nat.to_uint n).

(** Line terminators, which [.] does not match, and white space, which
    [\s] matches and [trim] strips (code units below 256). *)
Definition isLineTerminator (c : ascii) : bool :=
  match nat_of_ascii c with
  | 10 | 13 => true
  | _ => false
  end.

Definition isWhiteSpace (c : ascii) : bool :=
  match nat_of_ascii c with
  | 9 | 10 | 11 | 12 | 13 | 32 | 160 => true
  | _ => false
  end.

End JS.

(* ================================================================= *)
(** ** Regular-expression matching for the title pattern

    [String.prototype.match] with [/<title.*>(.*?)<\/title>/] is a
    backtracking search: the leftmost start wins, the greedy [.*] tries
    the longest run first, the lazy [(.*?)] the shortest, and [.] does
    not match a line terminator.  The matchers below are written in the
    continuation style of the language definition. *)

Module Regex.

(** A literal: the rest of the input when it starts with [p]. *)
Fixpoint literal (p s : string) : option string :=
  match p, s with
  | EmptyString, _ => Some s
  | String a p', String b s' => if Ascii.eqb a b then literal p' s' else None
  | String _ _, EmptyString => None
  end.

(** Greedy [.*] followed by the continuation [k]. *)
Fixpoint dotStarGreedy {A} (k : string -> option A) (s : string) : option A :=
  match s with
  | EmptyString => k s
  | String c s' =>
      if JS.isLineTerminator c then k s
      else match dotStarGreedy k s' with
           | Some r => Some r
           | None => k s
           end
  end.

(** Lazy capturing [(.*?)] followed by [k], which receives the text
    captured so far. *)
Fixpoint dotStarLazy {A} (k : string -> string -> option A)
         (captured s : string) : option A :=
  match k captured s with
  | Some r => Some r
  | None =>
      match s with
      | EmptyString => None
      | String c s' =>
          if JS.isLineTerminator c then None
          else dotStarLazy k (captured ++ String c EmptyString)%string s'
      end
  end.

(** The pattern anchored at the start of [s]; the answer is group 1. *)
Definition matchHere (s : string) : option string :=
  match literal "<title" s with
  | None => None
  | Some s1 =>
      dotStarGreedy
        (fun s2 =>
           match literal ">" s2 with
           | None => None
           | Some s3 =>
               dotStarLazy
                 (fun group s4 =>
                    match literal "</title>" s4 with
                    | Some _ => Some group
                    | None => None
                    end)
                 "" s3
           end)
        s1
  end.

(** [s.match(/<title.*>(.*?)<\/title>/)?.[1]] *)
Fixpoint titleGroup (s : string) : option string :=
  match matchHere s with
  | Some g => Some g
  | None =>
      match s with
      | EmptyString => None
      | String _ s' => titleGroup s'
      end
  end.

(** Whether [p] occurs in [s]. *)
Fixpoint occurs (p s : string) : bool :=
  match literal p s with
  | Some _ => true
  | None =>
      match s with
      | EmptyString => false
      | String _ s' => occurs p s'
      end
  end.


(** Whether every code unit of [s] satisfies [f]. *)
Fixpoint all (f : ascii -> bool) (s : string) : bool :=
  match s with
  | EmptyString => true
  | String c s' => f c && all f s'
  end.

End Regex.

(* ================================================================= *)
(** ** Text normalisation applied to the extracted text *)

Module Text.

Definition space : ascii := " "%char.

(** [.replace(/(\r\n|\n|\r)/gm, ' ')] *)
Fixpoint replaceNewlines (s : string) : string :=
  match s with
  | EmptyString => EmptyString
  | String c rest =>
      match nat_of_ascii c, rest with
      | 13, String c2 rest2 =>
          if Nat.eqb (nat_of_ascii c2) 10
          then String space (replaceNewlines rest2)
          else String space (replaceNewlines rest)
      | 13, EmptyString => String space EmptyString
      | 10, _ => String space (replaceNewlines rest)
      | _, _ => String c (replaceNewlines rest)
      end
  end.

(** [.replace(/\s+/g, ' ')]; [inRun] tells that the previous code unit
    was white space already replaced. *)
Fixpoint collapseFrom (inRun : bool) (s : string) : string :=
  match s with
  | EmptyString => EmptyString
  | String c rest =>
      if JS.isWhiteSpace c
      then if inRun then collapseFrom true rest
           else String space (collapseFrom true rest)
      else String c (collapseFrom false rest)
  end.

Definition collapseWhiteSpace (s : string) : string := collapseFrom false s.

Fixpoint trimStart (s : string) : string :=
  match s with
  | EmptyString => EmptyString
  | String c rest => if JS.isWhiteSpace c then trimStart rest else s
  end.

Fixpoint trimEnd (s : string) : string :=
  match s with
  | EmptyString => EmptyString
  | String c rest =>
      match trimEnd rest with
      | EmptyString => if JS.isWhiteSpace c then EmptyString else String c EmptyString
      | r => String c r
      end
  end.

(** [.trim()] *)
Definition trim (s : string) : string := trimEnd (trimStart s).

End Text.

(* ================================================================= *)
(** ** Data model *)

Inductive Measure : Type := cosine | dot.

(** An own property of an object literal: it may be absent, and when it
    is present it may hold [undefined]. *)
Inductive Property (A : Type) : Type :=
| Absent : Property A
| Own (v : option A) : Property A.
Arguments Absent {A}.
Arguments Own {A} v.

(** Reading a property: an absent one reads as [undefined]. *)
Definition read {A} (p : Property A) : option A :=
  match p with
  | Absent => None
  | Own v => v
  end.

(** [interface SearchConfig], every member optional. *)
Record SearchConfig : Type := mkConfig {
  similarityMeasure : Property Measure;
  rerankThreshold : Property JS.number;
  maxResults : Property JS.number
}.

Record Metadata : Type := mkMetadata { title : string; url : string }.

(** A langchain [Document]. *)
Record Document : Type := mkDocument { pageContent : string; metadata : Metadata }.

(** An entry of the search endpoint's [results] array; only [url] is read. *)
Record RawSearchResult : Type := mkResult { result_url : string }.

(** [response.data] of an HTTP response: a text body, [null]/[undefined],
    or a parsed JSON object whose [results] property may be missing. *)
Inductive Data : Type :=
| DText (body : string)
| DNullish
| DObject (results : option (list RawSearchResult)).

Inductive Role : Type := system | user | assistant.

Record BaseMessage : Type := mkMessage { role : Role; content : string }.

(** What a prompt template hands to the chat model. *)
Inductive PromptValue : Type :=
| StringPrompt (text : string)
| ChatPrompt (messages : list BaseMessage).

Record URL : Type := mkURL { href : string; searchParams : list (string * string) }.

Inductive Error : Type :=
| TypeError (msg : string)
| Failure (msg : string).

Inductive Result (A : Type) : Type :=
| Ok (a : A)
| Throw (e : Error).
Arguments Ok {A} a.
Arguments Throw {A} e.

(** The embedding model and the chat model, as the capabilities the
    class calls. *)
Record Embeddings : Type := mkEmbeddings {
  embedQuery : string -> Result (list JS.number);
  embedDocuments : list string -> Result (list (list JS.number))
}.

Record BaseChatModel : Type := mkChatModel {
  (** [llm] piped into [StringOutputParser] *)
  invoke : PromptValue -> Result string
}.

(** [class SearchAgent]: its only data member besides the stateless
    parser. *)
Record SearchAgent : Type := mkAgent { config : SearchConfig }.

(* ================================================================= *)
(** ** Effects *)

Inductive Event : Type :=
| ConsoleError (msg : string) (e : Error)
| HttpGet (target : string)
| EmbedQuery (text : string)
| EmbedDocuments (texts : list string)
| Invoke (prompt : PromptValue).

(** The state a method runs in: the receiver and the trace of effects. *)
Record World : Type := mkWorld { this : SearchAgent; trace : list Event }.

Definition M (A : Type) : Type := World -> Result A * World.

Definition ret {A} (a : A) : M A := fun w => (Ok a, w).

Definition bind {A B} (m : M A) (k : A -> M B) : M B :=
  fun w =>
    match m w with
    | (Ok a, w') => k a w'
    | (Throw e, w') => (Throw e, w')
    end.

Definition lift {A} (r : Result A) : M A := fun w => (r, w).

Definition emit (e : Event) : M unit :=
  fun w => (Ok tt, mkWorld (this w) (trace w ++ [e])).

(** [try { body } catch (error) { handler error }] *)
Definition tryCatch {A} (body : M A) (handler : Error -> M A) : M A :=
  fun w =>
    match body w with
    | (Ok a, w') => (Ok a, w')
    | (Throw e, w') => handler e w'
    end.

(** [this.config] *)
Definition thisConfig : M SearchConfig := fun w => (Ok (config (this w)), w).

Declare Scope monad_scope.
Delimit Scope monad_scope with monad.
Notation "x <- c1 ;; c2" := (bind c1 (fun x => c2))
  (at level 61, c1 at next level, right associativity) : monad_scope.
Notation "c1 ;; c2" := (bind c1 (fun _ => c2))
  (at level 61, right associativity) : monad_scope.
Local Open Scope monad_scope.

(** [arr.map(f)] with a callback that may throw; it stops at the first
    exception. *)
Fixpoint mapM_from {A B} (f : A -> nat -> M B) (i : nat) (arr : list A) : M (list B) :=
  match arr with
  | [] => ret []
  | x :: rest =>
      y <- f x i ;;
      ys <- mapM_from f (S i) rest ;;
      ret (y :: ys)
  end.

Fixpoint forEachM {A} (f : A -> M unit) (arr : list A) : M unit :=
  match arr with
  | [] => ret tt
  | x :: rest => f x ;; forEachM f rest
  end.

(* ================================================================= *)
(** ** Construction *)

(** [{ ...a, ...b }] on one property: the right operand wins whenever it
    owns the property, whatever it holds. *)
Definition spreadProperty {A} (a b : Property A) : Property A :=
  match b with
  | Absent => a
  | Own _ => b
  end.

Definition spread (a b : SearchConfig) : SearchConfig :=
  mkConfig (spreadProperty (similarityMeasure a) (similarityMeasure b))
           (spreadProperty (rerankThreshold a) (rerankThreshold b))
           (spreadProperty (maxResults a) (maxResults b)).

Definition defaultConfig : SearchConfig :=
  mkConfig (Own (Some cosine)) (Own (Some (JS.Num (3 # 10)))) (Own (Some (JS.Num 15))).

(** The empty object literal [{}]. *)
Definition emptyConfig : SearchConfig := mkConfig Absent Absent Absent.

(** [constructor(config: Partial<SearchConfig> = {})]; [None] is an
    omitted (or [undefined]) argument. *)
Definition constructor (config : option SearchConfig) : SearchAgent :=
  let config := match config with Some c => c | None => emptyConfig end in
  mkAgent (spread defaultConfig config).

(* ================================================================= *)
(** ** The methods of the class *)

(** The element type of [similarities] in [rerankDocs]. *)
Record Scored : Type := mkScored { index : nat; similarity : JS.number }.

(** How an interpolated [process.env] entry reads in a template literal. *)
Definition interpolate (v : option string) : string :=
  match v with
  | Some s => s
  | None => "undefined"
  end.

(** [url.searchParams.append(name, value)] *)
Definition append (u : URL) (name value : string) : URL :=
  mkURL (href u) (searchParams u ++ [(name, value)]).

(** [response.data.results] *)
Definition dataResults (d : Data) : Result (option (list RawSearchResult)) :=
  match d with
  | DNullish => Throw (TypeError "Cannot read properties of undefined (reading 'results')")
  | DText _ => Ok None
  | DObject r => Ok r
  end.

(** [response.data.match(/<title.*>(.*?)<\/title>/)?.[1] || url] *)
Definition extractTitle (d : Data) (url : string) : Result string :=
  match d with
  | DText html => Ok (JS.str_or_else (Regex.titleGroup html) url)
  | _ => Throw (TypeError "response.data.match is not a function")
  end.

(** [results.map((r: any) => r.url)] *)
Definition resultUrls (results : option (list RawSearchResult)) : Result (list string) :=
  match results with
  | Some rs => Ok (map result_url rs)
  | None => Throw (TypeError "Cannot read properties of undefined (reading 'map')")
  end.

(** The line feed, [\n]. *)
Definition newline : string := String (ascii_of_nat 10) EmptyString.

(** [`[${i + 1}] ${doc.metadata.title}\n${doc.pageContent}`]; an
    [undefined] element has no [metadata] to read. *)
Definition renderDoc (doc : option Document) (i : nat) : Result string :=
  match doc with
  | Some d =>
      Ok ("[" ++ JS.natToString (i + 1) ++ "] " ++ title (metadata d)
              ++ newline ++ pageContent d)%string
  | None => Throw (TypeError "Cannot read properties of undefined (reading 'metadata')")
  end.

(** The [context] entry of the answer chain's [RunnableMap]. *)
Definition context (docs : list (option Document)) : M string :=
  rendered <- mapM_from (fun doc i => lift (renderDoc doc i)) 0 docs ;;
  ret (JS.join (newline ++ newline)%string rendered).

Definition rephrasePrompt (query : string) : PromptValue :=
  StringPrompt
    ("Rephrase the following query for web search, making it more focused and specific:"
       ++ newline ++ "        Query: " ++ query
       ++ newline ++ "        Rephrased query:")%string.

Definition systemInstruction : string :=
  ("You are an AI assistant that helps users by providing detailed, accurate answers based on the given context. "
     ++ newline ++ "        Always cite your sources using [number] notation.")%string.

Definition answerPrompt (question contextText : string) (chat_history : list BaseMessage)
  : PromptValue :=
  ChatPrompt
    ([mkMessage system systemInstruction]
       ++ chat_history
       ++ [mkMessage user question;
           mkMessage system ("Context:" ++ newline ++ contextText)%string]).

Section Methods.

(** Imported packages. *)
Variable cosineSimilarity : list JS.number -> list JS.number -> Result JS.number.
Variable computeDot : list JS.number -> list JS.number -> Result JS.number.
Variable axios_get : string -> Result Data.
Variable htmlToText : Data -> Result string.
Variable splitText : string -> Result (list string).
Variable URL_parse : string -> Result string.
Variable URL_toString : URL -> string.
(** [process.env.SEARXNG_URL] *)
Variable SEARXNG_URL : option string.

Definition console_error (msg : string) (e : Error) : M unit :=
  emit (ConsoleError msg e).

(** [await axios.get(target)] *)
Definition get (target : string) : M Data :=
  emit (HttpGet target) ;; lift (axios_get target).

Definition computeSimilarity (x y : list JS.number) : M JS.number :=
  cfg <- thisConfig ;;
  match read (similarityMeasure cfg) with
  | Some cosine => lift (cosineSimilarity x y)
  | _ => lift (computeDot x y)
  end.

Definition searchWeb (query : string) : M (option (list RawSearchResult)) :=
  tryCatch
    (h <- lift (URL_parse (interpolate SEARXNG_URL ++ "/search")%string) ;;
     let url := mkURL h [] in
     let url := append url "q" query in
     let url := append url "format" "json" in
     let url := append url "language" "en" in
     response <- get (URL_toString url) ;;
     lift (dataResults response))
    (fun error =>
       console_error "Search error:" error ;;
       ret (Some [])).

(** The body of the [try] in one callback of
    [urls.map(async (url) => ...)], up to the argument list of
    [docs.push]: the documents the page yields, or the exception that
    ends the body. *)
Definition pageDocuments (url : string) : Result (list Document) :=
  match axios_get url with
  | Throw e => Throw e
  | Ok response =>
      match htmlToText response with
      | Throw e => Throw e
      | Ok raw =>
          let text := Text.trim (Text.collapseWhiteSpace (Text.replaceNewlines raw)) in
          match splitText text with
          | Throw e => Throw e
          | Ok chunks =>
              match extractTitle response url with
              | Throw e => Throw e
              | Ok title =>
                  Ok (map (fun chunk => mkDocument chunk (mkMetadata title url)) chunks)
              end
          end
      end
  end.

(** One callback, from the moment its response has arrived.  It touches
    the shared array [docs] only in its last synchronous stretch, the
    [push]; so a run of the callbacks is determined by the order in
    which they reach it. *)
Definition processUrl (url : string) (docs : list Document) : M (list Document) :=
  tryCatch
    (pushed <- lift (pageDocuments url) ;;
     ret (docs ++ pushed))
    (fun error =>
       console_error ("Error processing " ++ url ++ ":")%string error ;;
       ret docs).

(** [await Promise.all(tasks)]: the callbacks complete in the order
    [completion] (positions in [urls]); a callback that rejects makes
    the whole await reject. *)
Fixpoint promiseAll (completion : list nat) (urls : list string)
         (docs : list Document) : M (list Document) :=
  match completion with
  | [] => ret docs
  | i :: later =>
      match JS.index urls i with
      | Some url =>
          docs' <- processUrl url docs ;;
          promiseAll later urls docs'
      | None => promiseAll later urls docs
      end
  end.

(** The requests are issued in the order of [urls] when [map] runs the
    callbacks up to their first [await]; the responses are then
    processed in completion order. *)
Definition getDocumentsFromUrls (urls : list string) (completion : list nat)
  : M (list Document) :=
  forEachM (fun url => emit (HttpGet url)) urls ;;
  promiseAll completion urls [].

(** [await Promise.all([embedQuery(...), embedDocuments(...)])] is read
    for a model that reports failure by rejecting its promise: both
    calls are then made, in this order, before either outcome is known.
    When exactly one of them fails, its error is thrown.  When both
    fail, the code throws the rejection that settles first; the
    embedding here names the one of [embedQuery], and nothing below is
    stated about which of the two it is. *)
Definition rerankDocs (query : string) (docs : list Document) (embeddings : Embeddings)
  : M (list (option Document)) :=
  if Nat.eqb (List.length docs) 0 then ret []
  else
    let texts := map pageContent docs in
    emit (EmbedQuery query) ;;
    emit (EmbedDocuments texts) ;;
    queryEmbedding <- lift (embedQuery embeddings query) ;;
    docEmbeddings <- lift (embedDocuments embeddings texts) ;;
    similarities <-
      mapM_from
        (fun docEmbedding i =>
           s <- computeSimilarity queryEmbedding docEmbedding ;;
           ret (mkScored i s))
        0 docEmbeddings ;;
    cfg <- thisConfig ;;
    ret (map (fun sim => JS.index docs (index sim))
           (JS.slice0 (read (maxResults cfg))
              (JS.sort (fun a b => JS.sub (similarity b) (similarity a))
                 (filter
                    (fun sim =>
                       JS.gt (similarity sim)
                             (JS.or_else (read (rerankThreshold cfg)) (JS.Num (3 # 10))))
                    similarities)))).

(** The function inside [RunnableLambda.from] of the search chain. *)
Definition retrieve (embeddings : Embeddings) (schedule : list string -> list nat)
           (searchQuery : string) : M (list (option Document)) :=
  results <- searchWeb searchQuery ;;
  urls <- lift (resultUrls results) ;;
  docs <- getDocumentsFromUrls urls (schedule urls) ;;
  rerankDocs searchQuery docs embeddings.

Definition call (llm : BaseChatModel) (p : PromptValue) : M string :=
  emit (Invoke p) ;; lift (invoke llm p).

(** [schedule] gives, for the URLs being fetched, the order in which
    their callbacks complete. *)
Definition search (query : string) (llm : BaseChatModel) (embeddings : Embeddings)
           (history : list BaseMessage) (schedule : list string -> list nat) : M string :=
  (* searchChain.invoke({ query }) *)
  searchQuery <- call llm (rephrasePrompt query) ;;
  docs <- retrieve embeddings schedule searchQuery ;;
  (* answerChain.invoke({ query, docs }) *)
  contextText <- context docs ;;
  call llm (answerPrompt query contextText history).

End Methods.

(* ================================================================= *)
(** ** Notions used to state the properties *)

(** What one URL adds to the result: its documents when the page was
    processed, nothing when processing threw. *)
Definition contribution (pageDocuments : string -> Result (list Document)) (url : string)
  : list Document :=
  match pageDocuments url with
  | Ok docs => docs
  | Throw _ => []
  end.

(** A computation that leaves the receiver as it found it. *)
Definition keepsThis {A} (m : M A) : Prop :=
  forall w, this (snd (m w)) = this w.

(** The score of a pair of vectors under the configured measure, as
    [computeSimilarity] computes it. *)
Definition similarityUnder
           (cosineSimilarity computeDot : list JS.number -> list JS.number -> Result JS.number)
           (cfg : SearchConfig) (x y : list JS.number) : Result JS.number :=
  match read (similarityMeasure cfg) with
  | Some cosine => cosineSimilarity x y
  | _ => computeDot x y
  end.

(** The ranking order on scored entries: a higher score first, and for
    equal scores the earlier input position first. *)
Definition score (s : Scored) : Q :=
  match similarity s with
  | JS.Num q => q
  | JS.NaN => 0
  end.

Definition ranksBefore (a b : Scored) : Prop :=
  (score b < score a)%Q \/ ((score a == score b)%Q /\ index a < index b).

(** The specification's reading of title extraction: the text between the
    end of the first [<title ...>] tag and the next [</title>]. *)
Fixpoint after (p s : string) : option string :=
  match Regex.literal p s with
  | Some rest => Some rest
  | None =>
      match s with
      | EmptyString => None
      | String _ s' => after p s'
      end
  end.

Fixpoint before (p s : string) : option string :=
  match Regex.literal p s with
  | Some _ => Some EmptyString
  | None =>
      match s with
      | EmptyString => None
      | String c s' =>
          match before p s' with
          | Some t => Some (String c t)
          | None => None
          end
      end
  end.

Definition firstTitleElement (html : string) : option string :=
  match after "<title" html with
  | None => None
  | Some r1 =>
      match after ">" r1 with
      | None => None
      | Some r2 => before "</title>" r2
      end
  end.



(** The specification's reading of context assembly: the documents
    numbered from 1, one blank line between consecutive renderings. *)
Definition specRender (i : nat) (d : Document) : string :=
  ("[" ++ JS.natToString i ++ "] " ++ title (metadata d) ++ newline ++ pageContent d)%string.

Fixpoint specContextFrom (i : nat) (docs : list Document) : string :=
  match docs with
  | [] => ""
  | d :: rest =>
      match rest with
      | [] => specRender i d
      | _ :: _ => (specRender i d ++ newline ++ newline ++ specContextFrom (S i) rest)%string
      end
  end.

Definition specContext (docs : list Document) : string := specContextFrom 1 docs.

(* ================================================================= *)
(** ** Test doubles

    Stand-ins for the collaborators, in the manner of the scenarios of
    the specification: a vector product over the rationals, an embedding
    model that turns a text into a one-dimensional vector, a small web,
    and a chat model that echoes its prompt. *)

Module Fixture.

Fixpoint dotProduct (x y : list JS.number) : JS.number :=
  match x, y with
  | [], [] => JS.Num 0
  | JS.Num a :: x', JS.Num b :: y' =>
      match dotProduct x' y' with
      | JS.Num r => JS.Num (Qred (a * b + r))
      | JS.NaN => JS.NaN
      end
  | _, _ => JS.NaN
  end.

Definition computeDot (x y : list JS.number) : Result JS.number :=
  if Nat.eqb (List.length x) (List.length y)
  then Ok (dotProduct x y)
  else Throw (Failure "Arrays must be the same length").

(** The test vectors have length one, where the normalised product
    is the sign of the plain one; zero vectors give [NaN]. *)
Definition cosineSimilarity (x y : list JS.number) : Result JS.number :=
  match computeDot x y with
  | Ok (JS.Num q) =>
      Ok (match Qcompare q 0 with
          | Gt => JS.Num 1
          | Lt => JS.Num (-1)
          | Eq => JS.NaN
          end)
  | r => r
  end.

(** A text of [n] code units is embedded as the vector [[n / 10]]; the
    query as [[1]]. *)
Definition embeddings : Embeddings :=
  mkEmbeddings
    (fun _ => Ok [JS.Num 1])
    (fun texts =>
       Ok (map (fun t => [JS.Num (Qred (inject_Z (Z.of_nat (String.length t)) / 10))])
             texts)).

(** An embedding model that is down. *)
Definition brokenEmbeddings : Embeddings :=
  mkEmbeddings (fun _ => Throw (Failure "embedQuery")) (fun _ => Throw (Failure "embedDocuments")).

Definition doc (text : string) : Document := mkDocument text (mkMetadata "T" "u").

Definition searchTarget : string := "http://searx/search?q=rocq".

Definition pageOne : string :=
  "<html><head><title>One</title></head><body>alpha beta gamma</body></html>".

(** [u1] serves a page, [u2] is unreachable; the search endpoint lists
    both. *)
Definition axios_get (target : string) : Result Data :=
  if String.eqb target searchTarget then Ok (DObject (Some [mkResult "u1"; mkResult "u2"]))
  else if String.eqb target "u1" then Ok (DText pageOne)
  else Throw (Failure "ECONNREFUSED").

(** A search endpoint that answers with a body without [results]. *)
Definition axios_get_noResults (target : string) : Result Data :=
  if String.eqb target searchTarget then Ok (DObject None)
  else Throw (Failure "ECONNREFUSED").

(** A search endpoint that is down. *)
Definition axios_get_down (target : string) : Result Data :=
  Throw (Failure "ECONNREFUSED").

(** The text of the test page is its three words. *)
Definition htmlToText (d : Data) : Result string :=
  match d with
  | DText _ => Ok ("  alpha   beta" ++ newline ++ "gamma ")%string
  | _ => Throw (TypeError "html is not a string")
  end.

(** One chunk per word. *)
Fixpoint words (current : string) (s : string) : list string :=
  match s with
  | EmptyString => match current with EmptyString => [] | _ => [current] end
  | String c rest =>
      if Ascii.eqb c " "
      then match current with
           | EmptyString => words EmptyString rest
           | _ => current :: words EmptyString rest
           end
      else words (current ++ String c EmptyString)%string rest
  end.

Definition splitText (text : string) : Result (list string) := Ok (words "" text).

Definition URL_parse (input : string) : Result string :=
  match Regex.literal "http" input with
  | Some _ => Ok input
  | None => Throw (TypeError "Invalid URL")
  end.

Definition URL_toString (u : URL) : string :=
  match searchParams u with
  | (k, v) :: _ => (href u ++ "?" ++ k ++ "=" ++ v)%string
  | [] => href u
  end.

Definition SEARXNG_URL : option string := Some "http://searx".

(** The chat model answers the rephrasing request with [rocq] and
    echoes the last message of a chat prompt. *)
Definition llm : BaseChatModel :=
  mkChatModel
    (fun p =>
       match p with
       | StringPrompt _ => Ok "rocq"
       | ChatPrompt msgs => Ok (content (last msgs (mkMessage system "")))
       end).

Definition agent : SearchAgent :=
  constructor
    (Some (mkConfig (Own (Some dot)) (Own (Some (JS.Num (3 # 10)))) (Own (Some (JS.Num 2))))).

Definition world : World := mkWorld agent [].

(** The chunk documents of [u1]. *)
Definition chunksOne : list Document :=
  map (fun chunk => mkDocument chunk (mkMetadata "One" "u1")) ["alpha"; "beta"; "gamma"].

End Fixture.

(* ================================================================= *)
(** ** Further notions, for the properties beyond the claims *)

(** The threshold [rerankDocs] compares with: [rerankThreshold || 0.3]. *)
Definition effectiveThreshold (cfg : SearchConfig) : JS.number :=
  JS.or_else (read (rerankThreshold cfg)) (JS.Num (3 # 10)).

(** Whether the vector [e] of a document passes the filter of
    [rerankDocs] against the query vector [qe]. *)
Definition passes
           (cosineSimilarity computeDot : list JS.number -> list JS.number -> Result JS.number)
           (cfg : SearchConfig) (qe e : list JS.number) : bool :=
  match similarityUnder cosineSimilarity computeDot cfg qe e with
  | Ok s => JS.gt s (effectiveThreshold cfg)
  | Throw _ => false
  end.

(** A limit that leaves an array of up to [n] entries whole. *)
Definition keepsAll (limit : option JS.number) (n : nat) : Prop :=
  match limit with
  | None => True
  | Some v => (Z.of_nat n <= JS.toInteger v)%Z
  end.

(** The length of [arr.slice(0, limit)] for an array of [n] entries. *)
Definition sliceLength (limit : option JS.number) (n : nat) : nat :=
  match limit with
  | None => n
  | Some v =>
      if (JS.toInteger v <? 0)%Z
      then Z.to_nat (Z.of_nat n + JS.toInteger v)
      else Nat.min (Z.to_nat (JS.toInteger v)) n
  end.

(** What the callback of position [i] writes to the console. *)
Definition failureLog (pageDocuments : string -> Result (list Document))
           (urls : list string) (i : nat) : list Event :=
  match JS.index urls i with
  | Some u =>
      match pageDocuments u with
      | Throw e => [ConsoleError ("Error processing " ++ u ++ ":")%string e]
      | Ok _ => []
      end
  | None => []
  end.

Definition notTerminator (c : ascii) : bool := negb (JS.isLineTerminator c).

(** Text in which white space occurs only as single spaces;
    [afterSpace] tells that the code unit before was a space (or that
    the text starts here). *)
Fixpoint spacedFrom (afterSpace : bool) (s : string) : bool :=
  match s with
  | EmptyString => true
  | String c rest =>
      if JS.isWhiteSpace c
      then Ascii.eqb c " " && negb afterSpace && spacedFrom true rest
      else spacedFrom false rest
  end.

(** Text that does not end in white space. *)
Fixpoint endsClean (s : string) : bool :=
  match s with
  | EmptyString => true
  | String c EmptyString => negb (JS.isWhiteSpace c)
  | String _ rest => endsClean rest
  end.

(** The normal form the extracted text is brought to: words separated by
    single spaces, no white space at either end. *)
Definition normalForm (s : string) : bool := spacedFrom true s && endsClean s.

(* ================================================================= *)
(** ** More test doubles *)

Module Sample.

(** Three documents that score 0.1, 0.5 and 0.9 with [Fixture.embeddings],
    and four that score 0.5, 0.9, 0.5 and 0.4. *)
Definition docs : list Document :=
  [Fixture.doc "a"; Fixture.doc "bbbbb"; Fixture.doc "ccccccccc"].

Definition four : list Document :=
  [Fixture.doc "alpha"; Fixture.doc "ccccccccc"; Fixture.doc "gamma"; Fixture.doc "beta"].

(** An agent with a threshold of [0] and [maxResults: undefined], and the
    same agent with the threshold 0.3. *)
Definition lenient : World :=
  mkWorld (mkAgent (mkConfig (Own (Some dot)) (Own (Some (JS.Num 0))) (Own None))) [].

Definition standard : World :=
  mkWorld (mkAgent (mkConfig (Own (Some dot)) (Own (Some (JS.Num (3 # 10)))) (Own None))) [].

(** An embedding model whose document vectors have one dimension more
    than its query vector. *)
Definition raggedEmbeddings : Embeddings :=
  mkEmbeddings
    (fun _ => Ok [JS.Num 1])
    (fun texts => Ok (map (fun _ => [JS.Num 1; JS.Num 1]) texts)).

(** An embedding model that answers with one vector too many. *)
Definition surplusEmbeddings : Embeddings :=
  mkEmbeddings
    (fun _ => Ok [JS.Num 1])
    (fun texts =>
       Ok (map (fun t => [JS.Num (Qred (inject_Z (Z.of_nat (String.length t)) / 10))]) texts
             ++ [[JS.Num 1]])).

(** The trace of the test pipeline up to the end of the retrieval. *)
Definition retrieved : list Event :=
  [Invoke (rephrasePrompt "q?");
   HttpGet Fixture.searchTarget;
   HttpGet "u1"; HttpGet "u2";
   ConsoleError "Error processing u2:" (Failure "ECONNREFUSED");
   EmbedQuery "rocq"; EmbedDocuments ["alpha"; "beta"; "gamma"]].

End Sample.

(* ================================================================= *)
(** ** The receiver is only read *)

Section KeepsThis.

Lemma keepsThis_ret {A} (a : A) : keepsThis (ret a).
Proof. intro w. reflexivity. Qed.

Lemma keepsThis_lift {A} (r : Result A) : keepsThis (lift r).
Proof. intro w. reflexivity. Qed.

Lemma keepsThis_emit (e : Event) : keepsThis (emit e).
Proof. intro w. reflexivity. Qed.

Lemma keepsThis_thisConfig : keepsThis thisConfig.
Proof. intro w. reflexivity. Qed.

Lemma keepsThis_bind {A B} (m : M A) (k : A -> M B) :
  keepsThis m -> (forall a, keepsThis (k a)) -> keepsThis (bind m k).
Proof.
  intros Hm Hk w. unfold bind.
  specialize (Hm w). destruct (m w) as [[a | e] w1]; simpl in *.
  - rewrite Hk. exact Hm.
  - exact Hm.
Qed.

Lemma keepsThis_tryCatch {A} (body : M A) (handler : Error -> M A) :
  keepsThis body -> (forall e, keepsThis (handler e)) -> keepsThis (tryCatch body handler).
Proof.
  intros Hb Hh w. unfold tryCatch.
  specialize (Hb w). destruct (body w) as [[a | e] w1]; simpl in *.
  - exact Hb.
  - rewrite Hh. exact Hb.
Qed.

Lemma keepsThis_mapM_from {A B} (f : A -> nat -> M B) :
  (forall x i, keepsThis (f x i)) ->
  forall arr i, keepsThis (mapM_from f i arr).
Proof.
  intros Hf arr. induction arr as [| x rest IH]; intro i; simpl.
  - apply keepsThis_ret.
  - apply keepsThis_bind; [apply Hf |].
    intro y. apply keepsThis_bind; [apply IH |].
    intro ys. apply keepsThis_ret.
Qed.

Lemma keepsThis_forEachM {A} (f : A -> M unit) :
  (forall x, keepsThis (f x)) -> forall arr, keepsThis (forEachM f arr).
Proof.
  intros Hf arr. induction arr as [| x rest IH]; simpl.
  - apply keepsThis_ret.
  - apply keepsThis_bind; [apply Hf | intros _; exact IH].
Qed.

End KeepsThis.

Ltac keeps :=
  repeat match goal with
    | |- keepsThis (ret _) => apply keepsThis_ret
    | |- keepsThis (lift _) => apply keepsThis_lift
    | |- keepsThis (emit _) => apply keepsThis_emit
    | |- keepsThis thisConfig => apply keepsThis_thisConfig
    | |- keepsThis (bind _ _) => apply keepsThis_bind; [| intro]
    | |- keepsThis (tryCatch _ _) => apply keepsThis_tryCatch; [| intro]
    | |- keepsThis (mapM_from _ _ _) => apply keepsThis_mapM_from; intros ? ?
    | |- keepsThis (forEachM _ _) => apply keepsThis_forEachM; intro
    end.

Section MethodsKeepThis.

Variable cosineSimilarity computeDot : list JS.number -> list JS.number -> Result JS.number.
Variable axios_get : string -> Result Data.
Variable htmlToText : Data -> Result string.
Variable splitText : string -> Result (list string).
Variable URL_parse : string -> Result string.
Variable URL_toString : URL -> string.
Variable SEARXNG_URL : option string.

Lemma keepsThis_computeSimilarity x y :
  keepsThis (computeSimilarity cosineSimilarity computeDot x y).
Proof.
  unfold computeSimilarity. apply keepsThis_bind; [apply keepsThis_thisConfig |].
  intro cfg. destruct (read (similarityMeasure cfg)) as [[|] |]; apply keepsThis_lift.
Qed.

Lemma keepsThis_searchWeb query :
  keepsThis (searchWeb axios_get URL_parse URL_toString SEARXNG_URL query).
Proof. unfold searchWeb, get, console_error. keeps. Qed.

Lemma keepsThis_processUrl u docs :
  keepsThis (processUrl axios_get htmlToText splitText u docs).
Proof. unfold processUrl, console_error. keeps. Qed.

Lemma keepsThis_promiseAll completion urls :
  forall docs, keepsThis (promiseAll axios_get htmlToText splitText completion urls docs).
Proof.
  induction completion as [| i later IH]; intro docs; simpl.
  - apply keepsThis_ret.
  - destruct (JS.index urls i) as [u |]; [| apply IH].
    apply keepsThis_bind; [apply keepsThis_processUrl | intro; apply IH].
Qed.

Lemma keepsThis_getDocumentsFromUrls urls completion :
  keepsThis (getDocumentsFromUrls axios_get htmlToText splitText urls completion).
Proof.
  unfold getDocumentsFromUrls.
  apply keepsThis_bind; [keeps | intro; apply keepsThis_promiseAll].
Qed.

Lemma keepsThis_rerankDocs query docs embeddings :
  keepsThis (rerankDocs cosineSimilarity computeDot query docs embeddings).
Proof.
  unfold rerankDocs. destruct (Nat.eqb (List.length docs) 0); [apply keepsThis_ret |].
  keeps. apply keepsThis_computeSimilarity.
Qed.

Lemma keepsThis_retrieve embeddings schedule searchQuery :
  keepsThis (retrieve cosineSimilarity computeDot axios_get htmlToText splitText
               URL_parse URL_toString SEARXNG_URL embeddings schedule searchQuery).
Proof.
  unfold retrieve.
  apply keepsThis_bind; [apply keepsThis_searchWeb | intro].
  apply keepsThis_bind; [apply keepsThis_lift | intro].
  apply keepsThis_bind; [apply keepsThis_getDocumentsFromUrls | intro].
  apply keepsThis_rerankDocs.
Qed.

Lemma keepsThis_search query llm embeddings history schedule :
  keepsThis (search cosineSimilarity computeDot axios_get htmlToText splitText
               URL_parse URL_toString SEARXNG_URL query llm embeddings history schedule).
Proof.
  unfold search, call, context.
  apply keepsThis_bind; [keeps | intro].
  apply keepsThis_bind; [apply keepsThis_retrieve | intro].
  keeps.
Qed.

End MethodsKeepThis.

(* ================================================================= *)
(** ** Numbers and array built-ins *)

Section Numbers.

Lemma gt_Num (a b : JS.number) :
  JS.gt a b = true -> exists x y, a = JS.Num x /\ b = JS.Num y /\ (y < x)%Q.
Proof.
  destruct a as [| x], b as [| y]; simpl; try discriminate.
  destruct (Qcompare x y) eqn:E; try discriminate.
  intros _. exists x, y. repeat split. apply Qgt_alt. exact E.
Qed.

Lemma gt_Num_iff (x y : Q) : JS.gt (JS.Num x) (JS.Num y) = true <-> (y < x)%Q.
Proof.
  simpl. split.
  - destruct (Qcompare x y) eqn:E; try discriminate. intros _. apply Qgt_alt. exact E.
  - intro H. apply Qgt_alt in H. rewrite H. reflexivity.
Qed.

(** The comparator of [rerankDocs] asks for a swap exactly when the
    right entry has the strictly higher score. *)
Lemma comparator_positive (x y : Q) :
  JS.gt (JS.sub (JS.Num y) (JS.Num x)) (JS.Num 0) = true <-> (x < y)%Q.
Proof.
  unfold JS.sub. rewrite gt_Num_iff. split; intro H.
  - apply Qlt_minus_iff. exact H.
  - apply Qlt_minus_iff in H. exact H.
Qed.

(** [t || 0.3] is never below [t]. *)
Lemma or_else_threshold (t s : Q) :
  JS.gt (JS.Num s) (JS.or_else (Some (JS.Num t)) (JS.Num (3 # 10))) = true -> (t < s)%Q.
Proof.
  unfold JS.or_else, JS.truthy.
  destruct (Qeq_bool t 0) eqn:E; simpl negb; cbv iota; intro H; apply gt_Num_iff in H.
  - apply Qeq_bool_iff in E. rewrite E.
    apply Qlt_trans with (3 # 10); [reflexivity | exact H].
  - exact H.
Qed.

Lemma toInteger_nonneg (m : Q) : (0 <= m)%Q -> (0 <= JS.toInteger (JS.Num m))%Z.
Proof.
  intro H. simpl. unfold Qle in H. simpl in H.
  apply Z.quot_pos; lia.
Qed.

Lemma toInteger_below (m : Q) :
  (0 <= m)%Q -> (inject_Z (JS.toInteger (JS.Num m)) <= m)%Q.
Proof.
  intro H. unfold Qle in *. simpl in *.
  rewrite Z.quot_div_nonneg by lia.
  rewrite Z.mul_1_r in *.
  rewrite Z.mul_comm. apply Z.mul_div_le. lia.
Qed.

Lemma slice0_bounded {A} (m : Q) (arr : list A) :
  (0 <= m)%Q ->
  (inject_Z (Z.of_nat (List.length (JS.slice0 (Some (JS.Num m)) arr))) <= m)%Q.
Proof.
  intro H. unfold JS.slice0.
  pose proof (toInteger_nonneg m H) as Hn.
  pose proof (toInteger_below m H) as Hb.
  destruct (Z.ltb_spec (JS.toInteger (JS.Num m)) 0) as [Hlt | _]; [lia |].
  apply Qle_trans with (inject_Z (JS.toInteger (JS.Num m))); [| exact Hb].
  rewrite <- Zle_Qle.
  pose proof (firstn_le_length (Z.to_nat (JS.toInteger (JS.Num m))) arr) as Hl.
  lia.
Qed.

Lemma slice0_prefix {A} (finish : option JS.number) (arr : list A) :
  exists n, JS.slice0 finish arr = firstn n arr.
Proof.
  unfold JS.slice0. destruct finish as [v |].
  - destruct (JS.toInteger v <? 0)%Z; eexists; reflexivity.
  - exists (List.length arr). symmetry. apply firstn_all.
Qed.

Lemma insert_perm {A} (cmp : A -> A -> JS.number) (x : A) (l : list A) :
  Permutation (JS.insert cmp x l) (x :: l).
Proof.
  induction l as [| y rest IH]; simpl.
  - apply Permutation_refl.
  - destruct (JS.gt (cmp x y) (JS.Num 0)).
    + apply perm_trans with (y :: x :: rest).
      * apply perm_skip. exact IH.
      * apply perm_swap.
    + apply Permutation_refl.
Qed.

Lemma sort_perm {A} (cmp : A -> A -> JS.number) (l : list A) :
  Permutation (JS.sort cmp l) l.
Proof.
  induction l as [| x rest IH]; simpl.
  - apply perm_nil.
  - apply perm_trans with (x :: JS.sort cmp rest).
    + apply insert_perm.
    + apply perm_skip. exact IH.
Qed.

Lemma In_firstn {A} (n : nat) (l : list A) (y : A) :
  In y (firstn n l) -> In y l.
Proof.
  intro H. rewrite <- (firstn_skipn n l). apply in_or_app. left. exact H.
Qed.

Lemma firstn_NoDup {A} (n : nat) (l : list A) : NoDup l -> NoDup (firstn n l).
Proof.
  intro H. rewrite <- (firstn_skipn n l) in H.
  apply NoDup_app_remove_r in H. exact H.
Qed.

Lemma firstn_StronglySorted {A} (R : A -> A -> Prop) (l : list A) :
  StronglySorted R l -> forall n, StronglySorted R (firstn n l).
Proof.
  induction 1 as [| x l Hs IH Hx]; intro n.
  - rewrite firstn_nil. constructor.
  - destruct n as [| n]; simpl; constructor.
    + apply IH.
    + rewrite Forall_forall in *. intros y Hy. apply Hx.
      eapply In_firstn; eassumption.
Qed.

Lemma filter_StronglySorted {A} (R : A -> A -> Prop) (f : A -> bool) (l : list A) :
  StronglySorted R l -> StronglySorted R (filter f l).
Proof.
  induction 1 as [| x l Hs IH Hx]; simpl.
  - constructor.
  - destruct (f x); [| exact IH].
    constructor; [exact IH |].
    rewrite Forall_forall in *. intros y Hy. apply Hx.
    apply filter_In in Hy. apply Hy.
Qed.

End Numbers.

(* ================================================================= *)
(** ** Ranking: the chain [filter], [sort], [slice] *)

Section Ranking.

Let comparator (a b : Scored) : JS.number := JS.sub (similarity b) (similarity a).

Let hasScore (s : Scored) : Prop := exists q, similarity s = JS.Num q.

Let byPosition (a b : Scored) : Prop := index a < index b.

Lemma score_Num (s : Scored) (q : Q) : similarity s = JS.Num q -> score s = q.
Proof. intro H. unfold score. rewrite H. reflexivity. Qed.

Lemma ranksBefore_le (a b : Scored) : ranksBefore a b -> (score b <= score a)%Q.
Proof.
  intros [H | [H _]].
  - apply Qlt_le_weak. exact H.
  - rewrite H. apply Qle_refl.
Qed.

Lemma insert_ranked (x : Scored) (l : list Scored) :
  hasScore x ->
  Forall hasScore l ->
  Forall (byPosition x) l ->
  StronglySorted ranksBefore l ->
  StronglySorted ranksBefore (JS.insert comparator x l).
Proof.
  intros [qx Hx] Hl Hpos Hs.
  induction l as [| y rest IH]; simpl.
  - constructor; constructor.
  - inversion Hl as [| ? ? [qy Hy] Hl']; subst.
    inversion Hpos as [| ? ? Hxy Hpos']; subst.
    inversion Hs as [| ? ? Hs' Hy']; subst.
    unfold comparator at 1. rewrite Hx, Hy.
    destruct (JS.gt (JS.sub (JS.Num qy) (JS.Num qx)) (JS.Num 0)) eqn:E.
    + apply comparator_positive in E.
      constructor.
      * apply IH; assumption.
      * eapply Permutation_Forall.
        -- apply Permutation_sym. apply insert_perm.
        -- constructor; [| exact Hy'].
           left. rewrite (score_Num _ _ Hx), (score_Num _ _ Hy). exact E.
    + assert (Hle : (qy <= qx)%Q).
      { apply Qnot_lt_le. intro Hlt. apply comparator_positive in Hlt.
        rewrite Hlt in E. discriminate. }
      constructor; [exact Hs |].
      assert (Hall : Forall (fun z => (score z <= score x)%Q /\ byPosition x z) (y :: rest)).
      { constructor.
        - split; [| exact Hxy].
          rewrite (score_Num _ _ Hx), (score_Num _ _ Hy). exact Hle.
        - rewrite Forall_forall in *. intros z Hz. split; [| apply Hpos'; exact Hz].
          apply Qle_trans with (score y).
          + apply ranksBefore_le. apply Hy'. exact Hz.
          + rewrite (score_Num _ _ Hx), (score_Num _ _ Hy). exact Hle. }
      eapply Forall_impl; [| exact Hall].
      intros z [Hz Hp]. unfold ranksBefore.
      destruct (Qlt_le_dec (score z) (score x)) as [Hlt | Hge].
      * left. exact Hlt.
      * right. split; [| exact Hp]. apply Qle_antisym; assumption.
Qed.

Lemma sort_ranked (l : list Scored) :
  Forall hasScore l ->
  StronglySorted byPosition l ->
  StronglySorted ranksBefore (JS.sort comparator l).
Proof.
  intros Hl Hs. induction Hs as [| x rest Hs IH Hx]; simpl.
  - constructor.
  - inversion Hl as [| ? ? Hx' Hl']; subst.
    apply insert_ranked.
    + exact Hx'.
    + eapply Permutation_Forall; [apply Permutation_sym, sort_perm | exact Hl'].
    + eapply Permutation_Forall; [apply Permutation_sym, sort_perm | exact Hx].
    + apply IH. exact Hl'.
Qed.

(** Entries numbered consecutively are in position order and pairwise
    distinct. *)
Lemma seq_byPosition (l : list Scored) (i n : nat) :
  map index l = seq i n -> StronglySorted byPosition l.
Proof.
  revert i n. induction l as [| x rest IH]; intros i n H.
  - constructor.
  - destruct n as [| n]; [discriminate |]. simpl in H.
    injection H as Hx Hrest.
    constructor; [eapply IH; exact Hrest |].
    rewrite Forall_forall. intros y Hy.
    assert (Hin : In (index y) (seq (S i) n)).
    { rewrite <- Hrest. apply in_map. exact Hy. }
    apply in_seq in Hin. unfold byPosition. lia.
Qed.

Variable threshold : JS.number.
Variable limit : option JS.number.

(** The chain of [rerankDocs] on an array of scored entries. *)
Let chain (similarities : list Scored) : list Scored :=
  JS.slice0 limit
    (JS.sort (fun a b => JS.sub (similarity b) (similarity a))
       (filter (fun sim => JS.gt (similarity sim) threshold) similarities)).

Lemma chain_incl (similarities : list Scored) (s : Scored) :
  In s (chain similarities) ->
  In s similarities /\ JS.gt (similarity s) threshold = true.
Proof.
  unfold chain. intro H.
  destruct (slice0_prefix limit
              (JS.sort (fun a b => JS.sub (similarity b) (similarity a))
                 (filter (fun sim => JS.gt (similarity sim) threshold) similarities)))
    as [n Hn].
  rewrite Hn in H. apply In_firstn in H.
  eapply Permutation_in in H; [| apply sort_perm].
  apply filter_In in H. exact H.
Qed.

Lemma chain_ranked (similarities : list Scored) (i n : nat) :
  map index similarities = seq i n ->
  StronglySorted ranksBefore (chain similarities).
Proof.
  intro H. unfold chain.
  destruct (slice0_prefix limit
              (JS.sort (fun a b => JS.sub (similarity b) (similarity a))
                 (filter (fun sim => JS.gt (similarity sim) threshold) similarities)))
    as [k Hk].
  rewrite Hk. apply firstn_StronglySorted.
  apply (sort_ranked (filter (fun sim => JS.gt (similarity sim) threshold) similarities)).
  - rewrite Forall_forall. intros s Hs. apply filter_In in Hs.
    destruct Hs as [_ Hs]. apply gt_Num in Hs.
    destruct Hs as (x & y & Hx & _ & _). exists x. exact Hx.
  - apply filter_StronglySorted. eapply seq_byPosition. exact H.
Qed.

Lemma filter_map_NoDup {A B} (g : A -> B) (f : A -> bool) (l : list A) :
  NoDup (map g l) -> NoDup (map g (filter f l)).
Proof.
  induction l as [| x rest IH]; simpl; intro H.
  - constructor.
  - inversion H as [| ? ? Hx Hrest]; subst.
    destruct (f x); simpl; [| apply IH; exact Hrest].
    constructor; [| apply IH; exact Hrest].
    intro Hin. apply Hx. apply in_map_iff in Hin.
    destruct Hin as (y & Hy & Hin). apply filter_In in Hin.
    rewrite <- Hy. apply in_map. apply Hin.
Qed.

Lemma chain_NoDup (similarities : list Scored) (i n : nat) :
  map index similarities = seq i n ->
  NoDup (map index (chain similarities)).
Proof.
  intro H. unfold chain.
  destruct (slice0_prefix limit
              (JS.sort (fun a b => JS.sub (similarity b) (similarity a))
                 (filter (fun sim => JS.gt (similarity sim) threshold) similarities)))
    as [k Hk].
  rewrite Hk, <- firstn_map. apply firstn_NoDup.
  eapply Permutation_NoDup.
  - apply Permutation_map. apply Permutation_sym. apply sort_perm.
  - apply filter_map_NoDup. rewrite H. apply seq_NoDup.
Qed.

End Ranking.

(* ================================================================= *)
(** ** [rerankDocs] *)

Section Rerank.

Variable cosineSimilarity computeDot : list JS.number -> list JS.number -> Result JS.number.

Lemma computeSimilarity_run (x y : list JS.number) (w : World) :
  computeSimilarity cosineSimilarity computeDot x y w
  = (similarityUnder cosineSimilarity computeDot (config (this w)) x y, w).
Proof.
  unfold computeSimilarity, similarityUnder, bind, thisConfig, lift.
  destruct (read (similarityMeasure (config (this w)))) as [[|] |]; reflexivity.
Qed.

Lemma scores_run (queryEmbedding : list JS.number) (docEmbeddings : list (list JS.number)) :
  forall (i : nat) (w w' : World) (similarities : list Scored),
    mapM_from
      (fun docEmbedding i =>
         s <- computeSimilarity cosineSimilarity computeDot queryEmbedding docEmbedding ;;
         ret (mkScored i s))
      i docEmbeddings w = (Ok similarities, w') ->
    w' = w /\
    map index similarities = seq i (List.length docEmbeddings) /\
    Forall2
      (fun e s =>
         similarityUnder cosineSimilarity computeDot (config (this w)) queryEmbedding e
         = Ok (similarity s))
      docEmbeddings similarities.
Proof.
  induction docEmbeddings as [| e rest IH]; intros i w w' similarities H.
  - simpl in H. unfold ret in H. injection H as <- <-.
    repeat split. constructor.
  - simpl in H. unfold bind at 1 2 in H. rewrite computeSimilarity_run in H.
    destruct (similarityUnder cosineSimilarity computeDot (config (this w)) queryEmbedding e)
      as [s | err] eqn:Es; [| discriminate].
    unfold ret at 1 in H. unfold bind in H.
    destruct (mapM_from _ (S i) rest w) as [[ys | err] w1] eqn:Er; [| discriminate].
    unfold ret in H. injection H as <- <-.
    destruct (IH _ _ _ _ Er) as (Hw & Hidx & Hall).
    subst w1. repeat split.
    + simpl. rewrite Hidx. reflexivity.
    + constructor; [exact Es | exact Hall].
Qed.

Lemma scores_lookup {A} (P : A -> Scored -> Prop) (l : list A) (similarities : list Scored) :
  Forall2 P l similarities ->
  forall i, map index similarities = seq i (List.length l) ->
  forall s, In s similarities ->
    i <= index s /\ exists e, nth_error l (index s - i) = Some e /\ P e s.
Proof.
  induction 1 as [| e s0 l' sims' He Hrest IH]; intros i Hidx s Hin.
  - destruct Hin.
  - simpl in Hidx. injection Hidx as H0 Hidx'.
    destruct Hin as [-> | Hin].
    + split; [lia |]. exists e. rewrite H0, Nat.sub_diag. split; [reflexivity | exact He].
    + destruct (IH _ Hidx' _ Hin) as (Hle & e' & Hn & Hp).
      split; [lia |]. exists e'. split; [| exact Hp].
      replace (index s - i) with (S (index s - S i)) by lia. exact Hn.
Qed.

(** What a successful run of [rerankDocs] on a non-empty array did. *)
Lemma rerankDocs_run (query : string) (docs : list Document) (embeddings : Embeddings)
      (w w' : World) (out : list (option Document)) :
  docs <> [] ->
  rerankDocs cosineSimilarity computeDot query docs embeddings w = (Ok out, w') ->
  exists queryEmbedding docEmbeddings similarities,
    embedQuery embeddings query = Ok queryEmbedding /\
    embedDocuments embeddings (map pageContent docs) = Ok docEmbeddings /\
    this w' = this w /\
    map index similarities = seq 0 (List.length docEmbeddings) /\
    Forall2
      (fun e s =>
         similarityUnder cosineSimilarity computeDot (config (this w)) queryEmbedding e
         = Ok (similarity s))
      docEmbeddings similarities /\
    out = map (fun sim => JS.index docs (index sim))
            (JS.slice0 (read (maxResults (config (this w))))
               (JS.sort (fun a b => JS.sub (similarity b) (similarity a))
                  (filter
                     (fun sim =>
                        JS.gt (similarity sim)
                              (JS.or_else (read (rerankThreshold (config (this w))))
                                          (JS.Num (3 # 10))))
                     similarities))).
Proof.
  intros Hne H. unfold rerankDocs in H.
  destruct docs as [| d0 docs']; [contradiction |].
  cbn [List.length Nat.eqb] in H.
  unfold bind at 1 2 in H. unfold emit in H. cbn [this trace] in H.
  unfold bind at 1 in H. unfold lift at 1 in H.
  destruct (embedQuery embeddings query) as [qe | err]; [| discriminate].
  unfold bind at 1 in H. unfold lift at 1 in H.
  destruct (embedDocuments embeddings (map pageContent (d0 :: docs'))) as [des | err];
    [| discriminate].
  unfold bind at 1 in H.
  match type of H with
  | context [mapM_from ?f 0 des ?w0] =>
      destruct (mapM_from f 0 des w0) as [[sims | err] w1] eqn:Es; [| discriminate]
  end.
  apply scores_run in Es. destruct Es as (-> & Hidx & Hall).
  unfold bind, thisConfig, ret in H. cbn [this config] in H.
  injection H as <- <-.
  exists qe, des, sims. cbn [this]. repeat split; assumption || reflexivity.
Qed.

End Rerank.

(** C1.  Threshold and size of the result of [rerankDocs].  For a
    non-empty [docs], a configuration whose [rerankThreshold] is a number
    [t] and whose [maxResults] is a non-negative number [m], every
    document [rerankDocs] returns is [docs[i]] for a position [i] whose
    score, computed anew from the embeddings under
    [config.similarityMeasure], is strictly greater than [t]; and at most
    [m] documents are returned. *)
Theorem rerankDocs_above_threshold_and_bounded :
  forall (cosineSimilarity computeDot : list JS.number -> list JS.number -> Result JS.number)
         (query : string) (docs : list Document) (embeddings : Embeddings)
         (w w' : World) (out : list (option Document)) (t m : Q),
    docs <> [] ->
    read (rerankThreshold (config (this w))) = Some (JS.Num t) ->
    read (maxResults (config (this w))) = Some (JS.Num m) ->
    (0 <= m)%Q ->
    rerankDocs cosineSimilarity computeDot query docs embeddings w = (Ok out, w') ->
    exists queryEmbedding docEmbeddings picked,
      embedQuery embeddings query = Ok queryEmbedding /\
      embedDocuments embeddings (map pageContent docs) = Ok docEmbeddings /\
      out = map (JS.index docs) picked /\
      Forall
        (fun i =>
           exists e s,
             nth_error docEmbeddings i = Some e /\
             similarityUnder cosineSimilarity computeDot (config (this w)) queryEmbedding e
             = Ok (JS.Num s) /\
             (t < s)%Q)
        picked /\
      (inject_Z (Z.of_nat (List.length out)) <= m)%Q.
Proof.
  intros cs cd query docs embeddings w w' out t m Hne Ht Hm Hm0 Hrun.
  destruct (rerankDocs_run cs cd query docs embeddings w w' out Hne Hrun)
    as (qe & des & sims & Hq & Hd & _ & Hidx & Hall & Hout).
  rewrite Ht, Hm in Hout.
  exists qe, des.
  eexists (map index _).
  split; [exact Hq |]. split; [exact Hd |].
  split; [rewrite map_map; exact Hout |].
  split.
  - rewrite Forall_forall. intros i Hi. apply in_map_iff in Hi.
    destruct Hi as (s & <- & Hs).
    apply chain_incl in Hs. destruct Hs as [Hin Hgt].
    destruct (scores_lookup _ _ _ Hall 0 Hidx s Hin) as (_ & e & He & Hs).
    rewrite Nat.sub_0_r in He.
    destruct (gt_Num _ _ Hgt) as (x & y & Hx & _ & _).
    rewrite Hx in Hgt, Hs. exists e, x.
    split; [exact He |]. split; [exact Hs |].
    apply or_else_threshold. exact Hgt.
  - rewrite Hout, length_map. apply slice0_bounded. exact Hm0.
Qed.

(** Scenario B of the specification: similarities 0.1, 0.5 and 0.9,
    threshold 0.3 and at most two results. *)
Lemma rerankDocs_above_threshold_and_bounded_witness :
  exists queryEmbedding docEmbeddings picked,
    embedQuery Fixture.embeddings "q" = Ok queryEmbedding /\
    embedDocuments Fixture.embeddings
      (map pageContent [Fixture.doc "a"; Fixture.doc "bbbbb"; Fixture.doc "ccccccccc"])
    = Ok docEmbeddings /\
    [Some (Fixture.doc "ccccccccc"); Some (Fixture.doc "bbbbb")]
    = map (JS.index [Fixture.doc "a"; Fixture.doc "bbbbb"; Fixture.doc "ccccccccc"]) picked /\
    Forall
      (fun i =>
         exists e s,
           nth_error docEmbeddings i = Some e /\
           similarityUnder Fixture.cosineSimilarity Fixture.computeDot
             (config (this Fixture.world)) queryEmbedding e
           = Ok (JS.Num s) /\
           (3 # 10 < s)%Q)
      picked /\
    (inject_Z (Z.of_nat
       (List.length [Some (Fixture.doc "ccccccccc"); Some (Fixture.doc "bbbbb")])) <= 2)%Q.
Proof.
  apply (rerankDocs_above_threshold_and_bounded
           Fixture.cosineSimilarity Fixture.computeDot "q"
           [Fixture.doc "a"; Fixture.doc "bbbbb"; Fixture.doc "ccccccccc"]
           Fixture.embeddings Fixture.world
           (mkWorld Fixture.agent
              [EmbedQuery "q"; EmbedDocuments ["a"; "bbbbb"; "ccccccccc"]])).
  - discriminate.
  - reflexivity.
  - reflexivity.
  - discriminate.
  - vm_compute. reflexivity.
Defined.

(** C3.  Order of the result of [rerankDocs].  The documents returned are
    [docs[index s]] for a sequence of scored entries [s] that carry the
    scores computed from the embeddings and are strongly sorted by
    [ranksBefore]: an entry with a higher score comes first, and of two
    entries with equal scores the one that was earlier in [docs] comes
    first. *)
Theorem rerankDocs_sorted_stable :
  forall (cosineSimilarity computeDot : list JS.number -> list JS.number -> Result JS.number)
         (query : string) (docs : list Document) (embeddings : Embeddings)
         (w w' : World) (out : list (option Document)),
    docs <> [] ->
    rerankDocs cosineSimilarity computeDot query docs embeddings w = (Ok out, w') ->
    exists queryEmbedding docEmbeddings ranked,
      embedQuery embeddings query = Ok queryEmbedding /\
      embedDocuments embeddings (map pageContent docs) = Ok docEmbeddings /\
      out = map (fun s => JS.index docs (index s)) ranked /\
      Forall
        (fun s =>
           exists e q,
             nth_error docEmbeddings (index s) = Some e /\
             similarityUnder cosineSimilarity computeDot (config (this w)) queryEmbedding e
             = Ok (similarity s) /\
             similarity s = JS.Num q)
        ranked /\
      StronglySorted ranksBefore ranked.
Proof.
  intros cs cd query docs embeddings w w' out Hne Hrun.
  destruct (rerankDocs_run cs cd query docs embeddings w w' out Hne Hrun)
    as (qe & des & sims & Hq & Hd & _ & Hidx & Hall & Hout).
  exists qe, des. eexists.
  split; [exact Hq |]. split; [exact Hd |]. split; [exact Hout |]. split.
  - rewrite Forall_forall. intros s Hs.
    apply chain_incl in Hs. destruct Hs as [Hin Hgt].
    destruct (scores_lookup _ _ _ Hall 0 Hidx s Hin) as (_ & e & He & Hs).
    rewrite Nat.sub_0_r in He.
    destruct (gt_Num _ _ Hgt) as (x & y & Hx & _ & _).
    exists e, x. repeat split; assumption.
  - eapply chain_ranked. exact Hidx.
Qed.

(** Four documents scoring 0.5, 0.9, 0.5 and 0.4 with room for three: the
    two that tie at 0.5 keep their input order. *)
Lemma rerankDocs_sorted_stable_witness :
  exists queryEmbedding docEmbeddings ranked,
    embedQuery Fixture.embeddings "q" = Ok queryEmbedding /\
    embedDocuments Fixture.embeddings
      (map pageContent
         [Fixture.doc "alpha"; Fixture.doc "ccccccccc"; Fixture.doc "gamma"; Fixture.doc "beta"])
    = Ok docEmbeddings /\
    [Some (Fixture.doc "ccccccccc"); Some (Fixture.doc "alpha"); Some (Fixture.doc "gamma")]
    = map (fun s =>
             JS.index
               [Fixture.doc "alpha"; Fixture.doc "ccccccccc"; Fixture.doc "gamma";
                Fixture.doc "beta"]
               (index s))
          ranked /\
    Forall
      (fun s =>
         exists e q,
           nth_error docEmbeddings (index s) = Some e /\
           similarityUnder Fixture.cosineSimilarity Fixture.computeDot
             (mkConfig (Own (Some dot)) (Own (Some (JS.Num (3 # 10)))) (Own (Some (JS.Num 3))))
             queryEmbedding e
           = Ok (similarity s) /\
           similarity s = JS.Num q)
      ranked /\
    StronglySorted ranksBefore ranked.
Proof.
  apply (rerankDocs_sorted_stable
           Fixture.cosineSimilarity Fixture.computeDot "q"
           [Fixture.doc "alpha"; Fixture.doc "ccccccccc"; Fixture.doc "gamma"; Fixture.doc "beta"]
           Fixture.embeddings
           (mkWorld
              (mkAgent
                 (mkConfig (Own (Some dot)) (Own (Some (JS.Num (3 # 10))))
                    (Own (Some (JS.Num 3)))))
              [])
           (mkWorld
              (mkAgent
                 (mkConfig (Own (Some dot)) (Own (Some (JS.Num (3 # 10))))
                    (Own (Some (JS.Num 3)))))
              [EmbedQuery "q"; EmbedDocuments ["alpha"; "ccccccccc"; "gamma"; "beta"]])).
  - discriminate.
  - vm_compute. reflexivity.
Defined.

(** C5.  On an empty array [rerankDocs] answers with the empty array and
    leaves the trace as it was: neither [embedQuery] nor
    [embedDocuments] is called, whatever the model and the
    configuration. *)
Theorem rerankDocs_empty :
  forall (cosineSimilarity computeDot : list JS.number -> list JS.number -> Result JS.number)
         (query : string) (embeddings : Embeddings) (w : World),
    rerankDocs cosineSimilarity computeDot query [] embeddings w = (Ok [], w).
Proof. intros. reflexivity. Qed.

(** With a model that is down the empty array is still answered, while
    a non-empty one makes both calls and fails. *)
Example rerankDocs_empty_model_down :
  rerankDocs Fixture.cosineSimilarity Fixture.computeDot "q" []
    Fixture.brokenEmbeddings Fixture.world
  = (Ok [], Fixture.world) /\
  (exists e,
      rerankDocs Fixture.cosineSimilarity Fixture.computeDot "q" [Fixture.doc "a"]
        Fixture.brokenEmbeddings Fixture.world
      = (Throw e, mkWorld Fixture.agent [EmbedQuery "q"; EmbedDocuments ["a"]])).
Proof. split; [reflexivity | exists (Failure "embedQuery"); reflexivity]. Qed.

(** Corners of the configuration: a threshold of [0] is falsy and reads
    as [0.3]; a negative [maxResults] counts from the end and an
    [undefined] one does not truncate. *)
Example threshold_zero_reads_as_default :
  JS.or_else (Some (JS.Num 0)) (JS.Num (3 # 10)) = JS.Num (3 # 10).
Proof. reflexivity. Qed.

Example slice_negative_and_undefined :
  JS.slice0 (Some (JS.Num (-1))) [1; 2; 3] = [1; 2] /\
  JS.slice0 None [1; 2; 3] = [1; 2; 3] /\
  JS.slice0 (Some (JS.Num (5 # 2))) [1; 2; 3] = [1; 2].
Proof. repeat split; reflexivity. Qed.

Lemma picked_documents (docs : list Document) (l : list Scored) :
  Forall (fun s => index s < List.length docs) l ->
  Forall2 (fun i o => exists d, nth_error docs i = Some d /\ o = Some d)
    (map index l) (map (fun sim => JS.index docs (index sim)) l).
Proof.
  induction 1 as [| s l Hs Hl IH]; simpl; constructor.
  - unfold JS.index. destruct (nth_error docs (index s)) as [d |] eqn:En.
    + exists d. split; reflexivity.
    + apply nth_error_None in En. lia.
  - exact IH.
Qed.

(** C9.  The result of [rerankDocs] consists of input documents.  When
    the embedding model answers with one vector per text, there are
    pairwise distinct positions [picked] of [docs] such that the result
    is, entry by entry, the document at that position. *)
Theorem rerankDocs_selects_input_documents :
  forall (cosineSimilarity computeDot : list JS.number -> list JS.number -> Result JS.number)
         (query : string) (docs : list Document) (embeddings : Embeddings)
         (w w' : World) (out : list (option Document)),
    (forall docEmbeddings,
        embedDocuments embeddings (map pageContent docs) = Ok docEmbeddings ->
        List.length docEmbeddings = List.length docs) ->
    rerankDocs cosineSimilarity computeDot query docs embeddings w = (Ok out, w') ->
    exists picked,
      NoDup picked /\
      Forall2 (fun i o => exists d, nth_error docs i = Some d /\ o = Some d) picked out.
Proof.
  intros cs cd query docs embeddings w w' out Hlen Hrun.
  destruct docs as [| d0 docs'].
  - cbn in Hrun. unfold ret in Hrun. injection Hrun as <- _.
    exists []. split; constructor.
  - assert (Hne : d0 :: docs' <> []) by discriminate.
    destruct (rerankDocs_run cs cd query _ embeddings w w' out Hne Hrun)
      as (qe & des & sims & Hq & Hd & _ & Hidx & Hall & Hout).
    specialize (Hlen des Hd).
    rewrite Hout. eexists. split; cycle 1.
    + apply picked_documents.
      rewrite Forall_forall. intros s Hs. apply chain_incl in Hs.
      destruct Hs as [Hs _].
      assert (Hi : In (index s) (seq 0 (List.length des))).
      { rewrite <- Hidx. apply in_map. exact Hs. }
      apply in_seq in Hi. rewrite Hlen in Hi. lia.
    + eapply chain_NoDup. exact Hidx.
Qed.

Lemma rerankDocs_selects_input_documents_witness :
  exists picked,
    NoDup picked /\
    Forall2
      (fun i o =>
         exists d,
           nth_error [Fixture.doc "a"; Fixture.doc "bbbbb"; Fixture.doc "ccccccccc"] i = Some d /\
           o = Some d)
      picked
      [Some (Fixture.doc "ccccccccc"); Some (Fixture.doc "bbbbb")].
Proof.
  apply (rerankDocs_selects_input_documents
           Fixture.cosineSimilarity Fixture.computeDot "q"
           [Fixture.doc "a"; Fixture.doc "bbbbb"; Fixture.doc "ccccccccc"]
           Fixture.embeddings Fixture.world
           (mkWorld Fixture.agent
              [EmbedQuery "q"; EmbedDocuments ["a"; "bbbbb"; "ccccccccc"]])).
  - intros docEmbeddings H. cbn in H. injection H as <-. reflexivity.
  - vm_compute. reflexivity.
Defined.

(* ================================================================= *)
(** ** [searchWeb] *)

(** C6.  [searchWeb] never throws: every run ends with a value.  When the
    request fails, be it that [axios.get] rejects with [e], that the URL
    cannot even be built, or that the response carries no body to read
    [results] from, the error is written to the console and the value is
    the empty array. *)
Theorem searchWeb_absorbs_errors :
  forall (axios_get : string -> Result Data) (URL_parse : string -> Result string)
         (URL_toString : URL -> string) (SEARXNG_URL : option string)
         (query : string) (w : World),
    (exists r w',
        searchWeb axios_get URL_parse URL_toString SEARXNG_URL query w = (Ok r, w')) /\
    (forall h e,
        URL_parse (interpolate SEARXNG_URL ++ "/search")%string = Ok h ->
        axios_get
          (URL_toString
             (append (append (append (mkURL h []) "q" query) "format" "json") "language" "en"))
        = Throw e ->
        searchWeb axios_get URL_parse URL_toString SEARXNG_URL query w
        = (Ok (Some []),
           mkWorld (this w)
             (trace w
                ++ [HttpGet
                      (URL_toString
                         (append (append (append (mkURL h []) "q" query) "format" "json")
                            "language" "en"));
                    ConsoleError "Search error:" e]))) /\
    (forall e,
        URL_parse (interpolate SEARXNG_URL ++ "/search")%string = Throw e ->
        searchWeb axios_get URL_parse URL_toString SEARXNG_URL query w
        = (Ok (Some []), mkWorld (this w) (trace w ++ [ConsoleError "Search error:" e]))) /\
    (forall h,
        URL_parse (interpolate SEARXNG_URL ++ "/search")%string = Ok h ->
        axios_get
          (URL_toString
             (append (append (append (mkURL h []) "q" query) "format" "json") "language" "en"))
        = Ok DNullish ->
        fst (searchWeb axios_get URL_parse URL_toString SEARXNG_URL query w) = Ok (Some [])).
Proof.
  intros axios_get URL_parse URL_toString SEARXNG_URL query w.
  unfold searchWeb, get, console_error, tryCatch, bind, lift, emit, ret.
  cbn [this trace].
  split; [| split; [| split]].
  - destruct (URL_parse _) as [h | e]; [| do 2 eexists; reflexivity].
    cbn [this trace].
    destruct (axios_get _) as [d | e]; [| do 2 eexists; reflexivity].
    destruct (dataResults d) as [r | e]; do 2 eexists; reflexivity.
  - intros h e Hh He. rewrite Hh, He. cbn [this trace].
    rewrite <- app_assoc. reflexivity.
  - intros e He. rewrite He. reflexivity.
  - intros h Hh Hd. rewrite Hh. cbn [this trace]. rewrite Hd. reflexivity.
Qed.

(** The search endpoint is down. *)
Lemma searchWeb_absorbs_errors_witness :
  searchWeb Fixture.axios_get_down Fixture.URL_parse Fixture.URL_toString
    Fixture.SEARXNG_URL "rocq" Fixture.world
  = (Ok (Some []),
     mkWorld Fixture.agent
       [HttpGet Fixture.searchTarget;
        ConsoleError "Search error:" (Failure "ECONNREFUSED")]).
Proof.
  apply (proj1 (proj2 (searchWeb_absorbs_errors
                         Fixture.axios_get_down Fixture.URL_parse Fixture.URL_toString
                         Fixture.SEARXNG_URL "rocq" Fixture.world))
           "http://searx/search" (Failure "ECONNREFUSED")).
  - reflexivity.
  - reflexivity.
Defined.

(** C10.  A successful response whose body has no [results] property
    makes [searchWeb] return [undefined] ([None]), not the empty array;
    nothing is caught or logged.  The pipeline then calls [map] on that
    value, which throws, and the exception leaves [retrieve]. *)
Theorem searchWeb_missing_results :
  forall (cosineSimilarity computeDot : list JS.number -> list JS.number -> Result JS.number)
         (axios_get : string -> Result Data) (htmlToText : Data -> Result string)
         (splitText : string -> Result (list string))
         (URL_parse : string -> Result string)
         (URL_toString : URL -> string) (SEARXNG_URL : option string)
         (embeddings : Embeddings) (schedule : list string -> list nat)
         (query : string) (w : World) (h : string),
    URL_parse (interpolate SEARXNG_URL ++ "/search")%string = Ok h ->
    axios_get
      (URL_toString
         (append (append (append (mkURL h []) "q" query) "format" "json") "language" "en"))
    = Ok (DObject None) ->
    searchWeb axios_get URL_parse URL_toString SEARXNG_URL query w
    = (Ok None,
       mkWorld (this w)
         (trace w
            ++ [HttpGet
                  (URL_toString
                     (append (append (append (mkURL h []) "q" query) "format" "json")
                        "language" "en"))])) /\
    resultUrls None = Throw (TypeError "Cannot read properties of undefined (reading 'map')") /\
    fst (retrieve cosineSimilarity computeDot axios_get htmlToText splitText
           URL_parse URL_toString SEARXNG_URL embeddings schedule query w)
    = Throw (TypeError "Cannot read properties of undefined (reading 'map')").
Proof.
  intros cs cd axios_get htmlToText splitText URL_parse URL_toString SEARXNG_URL
         embeddings schedule query w h Hh Hd.
  assert (Hs : searchWeb axios_get URL_parse URL_toString SEARXNG_URL query w
               = (Ok None,
                  mkWorld (this w)
                    (trace w
                       ++ [HttpGet
                             (URL_toString
                                (append (append (append (mkURL h []) "q" query)
                                           "format" "json")
                                   "language" "en"))]))).
  { unfold searchWeb, get, tryCatch, bind, lift, emit.
    rewrite Hh. cbn [this trace]. rewrite Hd. reflexivity. }
  split; [exact Hs |]. split; [reflexivity |].
  unfold retrieve. unfold bind at 1. rewrite Hs. reflexivity.
Qed.

Lemma searchWeb_missing_results_witness :
  searchWeb Fixture.axios_get_noResults Fixture.URL_parse Fixture.URL_toString
    Fixture.SEARXNG_URL "rocq" Fixture.world
  = (Ok None, mkWorld Fixture.agent [HttpGet Fixture.searchTarget]) /\
  resultUrls None = Throw (TypeError "Cannot read properties of undefined (reading 'map')") /\
  fst (retrieve Fixture.cosineSimilarity Fixture.computeDot Fixture.axios_get_noResults
         Fixture.htmlToText Fixture.splitText Fixture.URL_parse Fixture.URL_toString
         Fixture.SEARXNG_URL Fixture.embeddings (fun _ => []) "rocq" Fixture.world)
  = Throw (TypeError "Cannot read properties of undefined (reading 'map')").
Proof.
  apply (searchWeb_missing_results
           Fixture.cosineSimilarity Fixture.computeDot Fixture.axios_get_noResults
           Fixture.htmlToText Fixture.splitText Fixture.URL_parse Fixture.URL_toString
           Fixture.SEARXNG_URL Fixture.embeddings (fun _ => []) "rocq" Fixture.world
           "http://searx/search").
  - reflexivity.
  - reflexivity.
Defined.

(* ================================================================= *)
(** ** [getDocumentsFromUrls] *)

Section Fetch.

Variable axios_get : string -> Result Data.
Variable htmlToText : Data -> Result string.
Variable splitText : string -> Result (list string).

Let page := pageDocuments axios_get htmlToText splitText.

(** What position [i] of [urls] adds. *)
Let added (urls : list string) (i : nat) : list Document :=
  match JS.index urls i with
  | Some u => contribution page u
  | None => []
  end.

(** A callback always completes normally, with its page's documents
    pushed or with nothing pushed. *)
Lemma processUrl_run (u : string) (docs : list Document) (w : World) :
  exists w',
    processUrl axios_get htmlToText splitText u docs w
    = (Ok (docs ++ contribution page u), w').
Proof.
  unfold processUrl, console_error, tryCatch, bind, lift, emit, ret, contribution, page.
  destruct (pageDocuments axios_get htmlToText splitText u) as [ds | e].
  - eexists. reflexivity.
  - eexists. rewrite app_nil_r. reflexivity.
Qed.

Lemma promiseAll_run (urls : list string) (completion : list nat) :
  forall (docs : list Document) (w : World),
  exists w',
    promiseAll axios_get htmlToText splitText completion urls docs w
    = (Ok (docs ++ flat_map (added urls) completion), w').
Proof.
  induction completion as [| i later IH]; intros docs w; simpl.
  - exists w. rewrite app_nil_r. reflexivity.
  - unfold added at 1. destruct (JS.index urls i) as [u |].
    + destruct (processUrl_run u docs w) as [w1 H1].
      unfold bind. rewrite H1.
      destruct (IH (docs ++ contribution page u) w1) as [w2 H2].
      exists w2. rewrite H2, <- app_assoc. reflexivity.
    + apply IH.
Qed.

Lemma requests_run (urls : list string) :
  forall w,
    forEachM (fun u => emit (HttpGet u)) urls w
    = (Ok tt, mkWorld (this w) (trace w ++ map HttpGet urls)).
Proof.
  induction urls as [| u rest IH]; intro w; simpl.
  - rewrite app_nil_r. destruct w. reflexivity.
  - unfold bind, emit at 1. rewrite IH. cbn [this trace].
    rewrite <- app_assoc. reflexivity.
Qed.

Lemma getDocumentsFromUrls_run (urls : list string) (completion : list nat) (w : World) :
  exists w',
    getDocumentsFromUrls axios_get htmlToText splitText urls completion w
    = (Ok (flat_map (added urls) completion), w').
Proof.
  unfold getDocumentsFromUrls, bind. rewrite requests_run.
  destruct (promiseAll_run urls completion []
              (mkWorld (this w) (trace w ++ map HttpGet urls))) as [w' H].
  exists w'. exact H.
Qed.

Lemma added_all (urls : list string) :
  flat_map (added urls) (seq 0 (List.length urls)) = flat_map (contribution page) urls.
Proof.
  induction urls as [| u rest IH]; [reflexivity |].
  cbn [List.length seq flat_map]. unfold added at 1. cbn [JS.index nth_error].
  f_equal. rewrite <- IH, <- seq_shift, flat_map_concat_map, map_map,
    <- flat_map_concat_map.
  reflexivity.
Qed.

End Fetch.

(** C2.  Fault isolation in [getDocumentsFromUrls].  Whatever the URLs
    and whatever the order in which their callbacks complete, the call
    returns normally; its result is, in completion order, the documents
    of each page that was processed, a URL whose processing threw adding
    none; so it holds exactly the documents of the pages that succeeded.
    With two URLs of which the first yields three chunks and the second
    fails, the result is those three chunks. *)
Theorem getDocumentsFromUrls_isolates_failures :
  forall (axios_get : string -> Result Data) (htmlToText : Data -> Result string)
         (splitText : string -> Result (list string))
         (urls : list string) (completion : list nat) (w : World),
    Permutation completion (seq 0 (List.length urls)) ->
    exists docs w',
      getDocumentsFromUrls axios_get htmlToText splitText urls completion w = (Ok docs, w') /\
      docs = flat_map
               (fun i =>
                  match JS.index urls i with
                  | Some u => contribution (pageDocuments axios_get htmlToText splitText) u
                  | None => []
                  end)
               completion /\
      Permutation docs
        (flat_map (contribution (pageDocuments axios_get htmlToText splitText)) urls) /\
      (forall u1 u2 c1 c2 c3 e,
          urls = [u1; u2] ->
          pageDocuments axios_get htmlToText splitText u1 = Ok [c1; c2; c3] ->
          pageDocuments axios_get htmlToText splitText u2 = Throw e ->
          docs = [c1; c2; c3]).
Proof.
  intros axios_get htmlToText splitText urls completion w Hperm.
  destruct (getDocumentsFromUrls_run axios_get htmlToText splitText urls completion w)
    as [w' Hrun].
  eexists. exists w'. split; [exact Hrun |]. split; [reflexivity |]. split.
  - rewrite <- added_all. apply Permutation_flat_map. exact Hperm.
  - intros u1 u2 c1 c2 c3 e -> H1 H2. cbn [List.length seq] in Hperm.
    apply Permutation_sym, Permutation_length_2_inv in Hperm.
    destruct Hperm as [-> | ->]; cbn [flat_map JS.index nth_error];
      unfold contribution; rewrite H1, H2; reflexivity.
Qed.

(** Scenario A of the specification, the failing URL completing first. *)
Lemma getDocumentsFromUrls_isolates_failures_witness :
  exists docs w',
    getDocumentsFromUrls Fixture.axios_get Fixture.htmlToText Fixture.splitText
      ["u1"; "u2"] [1; 0] Fixture.world = (Ok docs, w') /\
    docs = flat_map
             (fun i =>
                match JS.index ["u1"; "u2"] i with
                | Some u =>
                    contribution
                      (pageDocuments Fixture.axios_get Fixture.htmlToText Fixture.splitText) u
                | None => []
                end)
             [1; 0] /\
    Permutation docs
      (flat_map
         (contribution
            (pageDocuments Fixture.axios_get Fixture.htmlToText Fixture.splitText))
         ["u1"; "u2"]) /\
    (forall u1 u2 c1 c2 c3 e,
        ["u1"; "u2"] = [u1; u2] ->
        pageDocuments Fixture.axios_get Fixture.htmlToText Fixture.splitText u1
        = Ok [c1; c2; c3] ->
        pageDocuments Fixture.axios_get Fixture.htmlToText Fixture.splitText u2 = Throw e ->
        docs = [c1; c2; c3]).
Proof.
  apply (getDocumentsFromUrls_isolates_failures
           Fixture.axios_get Fixture.htmlToText Fixture.splitText
           ["u1"; "u2"] [1; 0] Fixture.world).
  apply perm_swap.
Defined.

(** The run of scenario A itself: three chunks, and the failure of [u2]
    on the console. *)
Example scenario_A :
  getDocumentsFromUrls Fixture.axios_get Fixture.htmlToText Fixture.splitText
    ["u1"; "u2"] [1; 0] Fixture.world
  = (Ok Fixture.chunksOne,
     mkWorld Fixture.agent
       [HttpGet "u1"; HttpGet "u2";
        ConsoleError "Error processing u2:" (Failure "ECONNREFUSED")]).
Proof. vm_compute. reflexivity. Qed.

(* ================================================================= *)
(** ** Strings *)

Lemma append_assoc (a b c : string) : ((a ++ b) ++ c = a ++ (b ++ c))%string.
Proof.
  induction a as [| x a IH]; simpl.
  - reflexivity.
  - rewrite IH. reflexivity.
Qed.

Lemma append_nil_r (a : string) : (a ++ "" = a)%string.
Proof.
  induction a as [| x a IH]; simpl.
  - reflexivity.
  - rewrite IH. reflexivity.
Qed.

(* ================================================================= *)
(** ** Context assembly in [search] *)

Lemma render_run (docs : list Document) :
  forall (i : nat) (w : World),
    mapM_from (fun doc i => lift (renderDoc doc i)) i (map Some docs) w
    = (Ok (JS.mapi_from (fun d i => specRender (i + 1) d) i docs), w).
Proof.
  induction docs as [| d rest IH]; intros i w; simpl.
  - reflexivity.
  - unfold bind, lift at 1. cbn [renderDoc]. rewrite IH. reflexivity.
Qed.

Lemma join_numbered (docs : list Document) :
  forall i,
    JS.join (newline ++ newline)%string (JS.mapi_from (fun d i => specRender (i + 1) d) i docs)
    = specContextFrom (i + 1) docs.
Proof.
  induction docs as [| d rest IH]; intro i.
  - reflexivity.
  - destruct rest as [| d' rest'].
    + reflexivity.
    + change (JS.mapi_from (fun d i => specRender (i + 1) d) i (d :: d' :: rest'))
        with (specRender (i + 1) d
                :: JS.mapi_from (fun d i => specRender (i + 1) d) (S i) (d' :: rest')).
      change (specContextFrom (i + 1) (d :: d' :: rest'))
        with (specRender (i + 1) d ++ newline ++ newline
                ++ specContextFrom (S (i + 1)) (d' :: rest'))%string.
      replace (S (i + 1)) with (S i + 1) by lia.
      rewrite <- IH.
      change (JS.mapi_from (fun d i => specRender (i + 1) d) (S i) (d' :: rest'))
        with (specRender (S i + 1) d'
                :: JS.mapi_from (fun d i => specRender (i + 1) d) (S (S i)) rest').
      cbn [JS.join].
      rewrite !append_assoc. reflexivity.
Qed.

Lemma context_run (docs : list Document) (w : World) :
  context (map Some docs) w = (Ok (specContext docs), w).
Proof.
  unfold context, bind. rewrite render_run. unfold ret, specContext.
  rewrite (join_numbered docs 0). reflexivity.
Qed.

(** C7.  The context handed to answer synthesis.  For documents [docs]
    coming out of the retrieval stage, [context] is their renderings
    [[i] title], newline, content, numbered from 1 in the order given
    and separated by two newlines; and [search] calls the chat model for
    the answer with exactly that text after [Context:]. *)
Theorem search_context_assembly :
  forall (cosineSimilarity computeDot : list JS.number -> list JS.number -> Result JS.number)
         (axios_get : string -> Result Data) (htmlToText : Data -> Result string)
         (splitText : string -> Result (list string))
         (URL_parse : string -> Result string)
         (URL_toString : URL -> string) (SEARXNG_URL : option string)
         (query : string) (llm : BaseChatModel) (embeddings : Embeddings)
         (history : list BaseMessage) (schedule : list string -> list nat)
         (w w1 : World) (searchQuery : string) (docs : list Document),
    invoke llm (rephrasePrompt query) = Ok searchQuery ->
    retrieve cosineSimilarity computeDot axios_get htmlToText splitText
      URL_parse URL_toString SEARXNG_URL embeddings schedule searchQuery
      (mkWorld (this w) (trace w ++ [Invoke (rephrasePrompt query)]))
    = (Ok (map Some docs), w1) ->
    context (map Some docs) w1 = (Ok (specContext docs), w1) /\
    search cosineSimilarity computeDot axios_get htmlToText splitText
      URL_parse URL_toString SEARXNG_URL query llm embeddings history schedule w
    = (invoke llm (answerPrompt query (specContext docs) history),
       mkWorld (this w1)
         (trace w1 ++ [Invoke (answerPrompt query (specContext docs) history)])).
Proof.
  intros cs cd axios_get htmlToText splitText URL_parse URL_toString SEARXNG_URL
         query llm embeddings history schedule w w1 searchQuery docs Hq Hr.
  split; [apply context_run |].
  unfold search. unfold bind at 1. unfold call at 1.
  unfold bind at 1. unfold emit at 1. unfold lift at 1. rewrite Hq.
  unfold bind at 1. rewrite Hr.
  unfold bind at 1. rewrite context_run.
  unfold call, bind, emit, lift. reflexivity.
Qed.

(** The whole pipeline on the test doubles: the echoing chat model is
    called with the context block of the two surviving chunks. *)
Lemma search_context_assembly_witness :
  context
    (map Some [mkDocument "alpha" (mkMetadata "One" "u1");
               mkDocument "gamma" (mkMetadata "One" "u1")])
    (mkWorld Fixture.agent
       [Invoke (rephrasePrompt "q?");
        HttpGet Fixture.searchTarget;
        HttpGet "u1"; HttpGet "u2";
        ConsoleError "Error processing u2:" (Failure "ECONNREFUSED");
        EmbedQuery "rocq"; EmbedDocuments ["alpha"; "beta"; "gamma"]])
  = (Ok (specContext [mkDocument "alpha" (mkMetadata "One" "u1");
                      mkDocument "gamma" (mkMetadata "One" "u1")]),
     mkWorld Fixture.agent
       [Invoke (rephrasePrompt "q?");
        HttpGet Fixture.searchTarget;
        HttpGet "u1"; HttpGet "u2";
        ConsoleError "Error processing u2:" (Failure "ECONNREFUSED");
        EmbedQuery "rocq"; EmbedDocuments ["alpha"; "beta"; "gamma"]]) /\
  search Fixture.cosineSimilarity Fixture.computeDot Fixture.axios_get
    Fixture.htmlToText Fixture.splitText Fixture.URL_parse Fixture.URL_toString
    Fixture.SEARXNG_URL "q?" Fixture.llm Fixture.embeddings [] (fun _ => [1; 0])
    Fixture.world
  = (invoke Fixture.llm
       (answerPrompt "q?"
          (specContext [mkDocument "alpha" (mkMetadata "One" "u1");
                        mkDocument "gamma" (mkMetadata "One" "u1")])
          []),
     mkWorld Fixture.agent
       ([Invoke (rephrasePrompt "q?");
         HttpGet Fixture.searchTarget;
         HttpGet "u1"; HttpGet "u2";
         ConsoleError "Error processing u2:" (Failure "ECONNREFUSED");
         EmbedQuery "rocq"; EmbedDocuments ["alpha"; "beta"; "gamma"]]
          ++ [Invoke
                (answerPrompt "q?"
                   (specContext [mkDocument "alpha" (mkMetadata "One" "u1");
                                 mkDocument "gamma" (mkMetadata "One" "u1")])
                   [])])).
Proof.
  apply (search_context_assembly
           Fixture.cosineSimilarity Fixture.computeDot Fixture.axios_get
           Fixture.htmlToText Fixture.splitText Fixture.URL_parse
           Fixture.URL_toString Fixture.SEARXNG_URL "q?" Fixture.llm
           Fixture.embeddings [] (fun _ => [1; 0])
           Fixture.world
           (mkWorld Fixture.agent
              [Invoke (rephrasePrompt "q?");
               HttpGet Fixture.searchTarget;
               HttpGet "u1"; HttpGet "u2";
               ConsoleError "Error processing u2:" (Failure "ECONNREFUSED");
               EmbedQuery "rocq"; EmbedDocuments ["alpha"; "beta"; "gamma"]])
           "rocq"
           [mkDocument "alpha" (mkMetadata "One" "u1");
            mkDocument "gamma" (mkMetadata "One" "u1")]).
  - reflexivity.
  - vm_compute. reflexivity.
Defined.

(** Scenario D of the specification: the answer of the echoing chat model
    is the literal context block. *)
Example scenario_D :
  fst (search Fixture.cosineSimilarity Fixture.computeDot Fixture.axios_get
         Fixture.htmlToText Fixture.splitText Fixture.URL_parse Fixture.URL_toString
         Fixture.SEARXNG_URL "q?" Fixture.llm Fixture.embeddings [] (fun _ => [1; 0])
         Fixture.world)
  = Ok ("Context:" ++ newline ++ "[1] One" ++ newline ++ "alpha" ++ newline ++ newline
          ++ "[2] One" ++ newline ++ "gamma")%string.
Proof. vm_compute. reflexivity. Qed.

(* ================================================================= *)
(** ** Construction and the configuration *)

(** A property given as [undefined] is an own property of the caller's
    object and replaces the default. *)
Example constructor_explicit_undefined :
  config (constructor (Some (mkConfig Absent Absent (Own None))))
  = mkConfig (Own (Some cosine)) (Own (Some (JS.Num (3 # 10)))) (Own None).
Proof. reflexivity. Qed.

(** C8.  Defaults and immutability of the configuration.  A property the
    caller's object does not own takes its default (cosine, 0.3, 15),
    properties the caller gave are kept; and no method changes the
    receiver, so the configuration built by the constructor is the one
    every later call reads. *)
Theorem config_defaults_and_immutability :
  forall (sm : Property Measure) (th mr : Property JS.number),
    config (constructor None) = defaultConfig /\
    config (constructor (Some emptyConfig)) = defaultConfig /\
    read (similarityMeasure (config (constructor (Some (mkConfig Absent th mr)))))
    = Some cosine /\
    read (rerankThreshold (config (constructor (Some (mkConfig sm Absent mr)))))
    = Some (JS.Num (3 # 10)) /\
    read (maxResults (config (constructor (Some (mkConfig sm th Absent)))))
    = Some (JS.Num 15) /\
    (forall v t m,
        config (constructor (Some (mkConfig (Own v) (Own t) (Own m))))
        = mkConfig (Own v) (Own t) (Own m)) /\
    (forall (cosineSimilarity computeDot :
               list JS.number -> list JS.number -> Result JS.number)
            (axios_get : string -> Result Data) (htmlToText : Data -> Result string)
            (splitText : string -> Result (list string))
            (URL_parse : string -> Result string)
            (URL_toString : URL -> string) (SEARXNG_URL : option string)
            (query : string) (llm : BaseChatModel) (embeddings : Embeddings)
            (history : list BaseMessage) (schedule : list string -> list nat)
            (docs : list Document) (urls : list string) (completion : list nat)
            (x y : list JS.number),
        keepsThis (computeSimilarity cosineSimilarity computeDot x y) /\
        keepsThis (searchWeb axios_get URL_parse URL_toString SEARXNG_URL query) /\
        keepsThis (getDocumentsFromUrls axios_get htmlToText splitText urls completion) /\
        keepsThis (rerankDocs cosineSimilarity computeDot query docs embeddings) /\
        keepsThis (search cosineSimilarity computeDot axios_get htmlToText splitText
                     URL_parse URL_toString SEARXNG_URL query llm embeddings history
                     schedule)).
Proof.
  intros sm th mr.
  do 5 (split; [reflexivity |]).
  split; [intros; reflexivity |].
  intros. repeat split.
  - apply keepsThis_computeSimilarity.
  - apply keepsThis_searchWeb.
  - apply keepsThis_getDocumentsFromUrls.
  - apply keepsThis_rerankDocs.
  - apply keepsThis_search.
Qed.

(* ================================================================= *)
(** ** Title extraction *)

Section Title.

(** The continuations of [Regex.matchHere]. *)
Let closing (group s4 : string) : option string :=
  match Regex.literal "</title>" s4 with
  | Some _ => Some group
  | None => None
  end.

Let opening (s2 : string) : option string :=
  match Regex.literal ">" s2 with
  | None => None
  | Some s3 => Regex.dotStarLazy closing "" s3
  end.

Lemma matchHere_unfold (s : string) :
  Regex.matchHere s
  = match Regex.literal "<title" s with
    | None => None
    | Some s1 => Regex.dotStarGreedy opening s1
    end.
Proof. reflexivity. Qed.


Lemma occurs_false_literal (p s : string) :
  Regex.occurs p s = false -> Regex.literal p s = None.
Proof.
  destruct s; simpl; destruct (Regex.literal p _); congruence.
Qed.

Lemma occurs_false_tail (p : string) (c : ascii) (s : string) :
  Regex.occurs p (String c s) = false -> Regex.occurs p s = false.
Proof.
  simpl. destruct (Regex.literal p (String c s)); [discriminate | trivial].
Qed.

















Lemma titleGroup_none (s : string) :
  Regex.occurs "<title" s = false -> Regex.titleGroup s = None.
Proof.
  induction s as [| c s IH]; intro H.
  - reflexivity.
  - cbn [Regex.titleGroup]. rewrite matchHere_unfold, (occurs_false_literal _ _ H).
    apply IH. eapply occurs_false_tail. exact H.
Qed.




End Title.


(** Further inputs on which the title is not the element's content: an
    empty title falls back to the URL, and a [>] inside the title cuts
    it. *)
Example extractTitle_empty_title :
  extractTitle (DText "<title></title>") "https://x.test/a" = Ok "https://x.test/a".
Proof. vm_compute. reflexivity. Qed.

Example extractTitle_gt_in_title :
  extractTitle (DText "<title>a > b</title>") "https://x.test/a" = Ok " b".
Proof. vm_compute. reflexivity. Qed.

(* ================================================================= *)
(** ** More on [rerankDocs] *)

Section RerankMore.

Variable cosineSimilarity computeDot : list JS.number -> list JS.number -> Result JS.number.

Let scoring (queryEmbedding : list JS.number) : list JS.number -> nat -> M Scored :=
  fun docEmbedding i =>
    s <- computeSimilarity cosineSimilarity computeDot queryEmbedding docEmbedding ;;
    ret (mkScored i s).

Lemma scores_step (queryEmbedding e : list JS.number) (rest : list (list JS.number))
      (i : nat) (w : World) :
  mapM_from (scoring queryEmbedding) i (e :: rest) w
  = match similarityUnder cosineSimilarity computeDot (config (this w)) queryEmbedding e with
    | Throw err => (Throw err, w)
    | Ok s =>
        match mapM_from (scoring queryEmbedding) (S i) rest w with
        | (Ok ys, w1) => (Ok (mkScored i s :: ys), w1)
        | (Throw err, w1) => (Throw err, w1)
        end
    end.
Proof.
  cbn [mapM_from]. unfold bind at 1. unfold scoring at 1. unfold bind at 1.
  rewrite computeSimilarity_run.
  destruct (similarityUnder cosineSimilarity computeDot (config (this w)) queryEmbedding e)
    as [s | err]; [| reflexivity].
  unfold ret at 1. unfold bind.
  destruct (mapM_from (scoring queryEmbedding) (S i) rest w) as [[ys | err] w1]; reflexivity.
Qed.

(** Scoring writes nothing and keeps the world, whatever its outcome. *)
Lemma scores_world (queryEmbedding : list JS.number) (docEmbeddings : list (list JS.number)) :
  forall (i : nat) (w : World),
    snd (mapM_from (scoring queryEmbedding) i docEmbeddings w) = w.
Proof.
  induction docEmbeddings as [| e rest IH]; intros i w.
  - reflexivity.
  - rewrite scores_step.
    destruct (similarityUnder _ _ _ _ e) as [s | err]; [| reflexivity].
    specialize (IH (S i) w).
    destruct (mapM_from (scoring queryEmbedding) (S i) rest w) as [[ys | err] w1];
      exact IH.
Qed.

(** The scores depend on the configuration through the measure only. *)
Lemma scores_congr (queryEmbedding : list JS.number) (docEmbeddings : list (list JS.number)) :
  forall (i : nat) (w1 w2 : World),
    read (similarityMeasure (config (this w1))) = read (similarityMeasure (config (this w2))) ->
    fst (mapM_from (scoring queryEmbedding) i docEmbeddings w1)
    = fst (mapM_from (scoring queryEmbedding) i docEmbeddings w2).
Proof.
  induction docEmbeddings as [| e rest IH]; intros i w1 w2 Hm.
  - reflexivity.
  - rewrite !scores_step. unfold similarityUnder. rewrite Hm.
    destruct (match read (similarityMeasure (config (this w2))) with
              | Some cosine => cosineSimilarity queryEmbedding e
              | _ => computeDot queryEmbedding e
              end) as [s | err]; [| reflexivity].
    specialize (IH (S i) w1 w2 Hm).
    destruct (mapM_from (scoring queryEmbedding) (S i) rest w1) as [[ys1 | err1] w1'];
      destruct (mapM_from (scoring queryEmbedding) (S i) rest w2) as [[ys2 | err2] w2'];
      simpl in IH; inversion IH; reflexivity.
Qed.

(** The first vector that cannot be scored ends the scoring. *)
Lemma scores_throw (queryEmbedding : list JS.number) (before : list (list JS.number))
      (v : list JS.number) (later : list (list JS.number)) (e : Error) :
  forall (i : nat) (w : World),
    Forall
      (fun x =>
         exists s,
           similarityUnder cosineSimilarity computeDot (config (this w)) queryEmbedding x = Ok s)
      before ->
    similarityUnder cosineSimilarity computeDot (config (this w)) queryEmbedding v = Throw e ->
    fst (mapM_from (scoring queryEmbedding) i (before ++ v :: later) w) = Throw e.
Proof.
  induction before as [| x rest IH]; intros i w Hok Hv.
  - cbn [List.app]. rewrite scores_step, Hv. reflexivity.
  - inversion Hok as [| ? ? [s Hs] Hrest]; subst.
    change ((x :: rest) ++ v :: later) with (x :: (rest ++ v :: later)).
    rewrite scores_step, Hs.
    specialize (IH (S i) w Hrest Hv).
    destruct (mapM_from (scoring queryEmbedding) (S i) (rest ++ v :: later) w)
      as [[ys | err] w1]; simpl in IH |- *; [discriminate | exact IH].
Qed.

(** [rerankDocs] on a non-empty array, in terms of the two embedding
    calls and the scoring. *)
Lemma rerankDocs_unfold (query : string) (d0 : Document) (docs' : list Document)
      (embeddings : Embeddings) (w : World) :
  rerankDocs cosineSimilarity computeDot query (d0 :: docs') embeddings w
  = let w1 := mkWorld (this w)
                (trace w ++ [EmbedQuery query; EmbedDocuments (map pageContent (d0 :: docs'))]) in
    match embedQuery embeddings query with
    | Throw e => (Throw e, w1)
    | Ok queryEmbedding =>
        match embedDocuments embeddings (map pageContent (d0 :: docs')) with
        | Throw e => (Throw e, w1)
        | Ok docEmbeddings =>
            match mapM_from (scoring queryEmbedding) 0 docEmbeddings w1 with
            | (Throw e, w2) => (Throw e, w2)
            | (Ok similarities, w2) =>
                (Ok (map (fun sim => JS.index (d0 :: docs') (index sim))
                       (JS.slice0 (read (maxResults (config (this w2))))
                          (JS.sort (fun a b => JS.sub (similarity b) (similarity a))
                             (filter
                                (fun sim =>
                                   JS.gt (similarity sim) (effectiveThreshold (config (this w2))))
                                similarities)))),
                 w2)
            end
        end
    end.
Proof.
  unfold rerankDocs. cbn [List.length Nat.eqb]. cbv zeta.
  unfold bind at 1 2. unfold emit. cbn [this trace]. rewrite <- app_assoc. cbn [List.app].
  unfold bind at 1. unfold lift at 1.
  destruct (embedQuery embeddings query) as [qe | e]; [| reflexivity].
  unfold bind at 1. unfold lift at 1.
  destruct (embedDocuments embeddings (map pageContent (d0 :: docs'))) as [des | e];
    [| reflexivity].
  unfold bind at 1. fold (scoring qe).
  destruct (mapM_from (scoring qe) 0 des _) as [[sims | e] w2]; reflexivity.
Qed.

End RerankMore.

Lemma effectiveThreshold_falsy (cfg : SearchConfig) :
  JS.truthy (read (rerankThreshold cfg)) = false ->
  effectiveThreshold cfg = JS.Num (3 # 10).
Proof.
  unfold effectiveThreshold, JS.or_else. intro H.
  destruct (read (rerankThreshold cfg)) as [x |]; [| reflexivity].
  rewrite H. reflexivity.
Qed.

Lemma scores_at {A} (P : A -> Scored -> Prop) (l : list A) (similarities : list Scored) :
  Forall2 P l similarities ->
  forall k, map index similarities = seq k (List.length l) ->
  forall i e, nth_error l i = Some e ->
    exists sc, In sc similarities /\ index sc = k + i /\ P e sc.
Proof.
  induction 1 as [| e0 s0 l' sims' He Hrest IH]; intros k Hidx i e Hn.
  - destruct i; discriminate.
  - simpl in Hidx. injection Hidx as H0 Hidx'.
    destruct i as [| i]; simpl in Hn.
    + injection Hn as <-. exists s0. split; [left; reflexivity |].
      split; [lia | exact He].
    + destruct (IH _ Hidx' _ _ Hn) as (sc & Hin & Hi & Hp).
      exists sc. split; [right; exact Hin |]. split; [lia | exact Hp].
Qed.

Lemma slice0_all {A} (limit : option JS.number) (n : nat) (arr : list A) :
  keepsAll limit n -> List.length arr <= n -> JS.slice0 limit arr = arr.
Proof.
  unfold keepsAll, JS.slice0. destruct limit as [v |]; [| reflexivity].
  intros Hk Hn.
  destruct (Z.ltb_spec (JS.toInteger v) 0) as [Hlt | _]; [lia |].
  apply firstn_all2. lia.
Qed.

Lemma slice0_length {A} (limit : option JS.number) (arr : list A) :
  List.length (JS.slice0 limit arr) = sliceLength limit (List.length arr).
Proof.
  unfold JS.slice0, sliceLength. destruct limit as [v |]; [| reflexivity].
  destruct (Z.ltb_spec (JS.toInteger v) 0) as [Hlt | Hge]; rewrite length_firstn; lia.
Qed.

Lemma filter_scores_length
      (cosineSimilarity computeDot : list JS.number -> list JS.number -> Result JS.number)
      (cfg : SearchConfig) (qe : list JS.number)
      (des : list (list JS.number)) (similarities : list Scored) :
  Forall2
    (fun e s => similarityUnder cosineSimilarity computeDot cfg qe e = Ok (similarity s))
    des similarities ->
  List.length
    (filter (fun sim => JS.gt (similarity sim) (effectiveThreshold cfg)) similarities)
  = List.length (filter (passes cosineSimilarity computeDot cfg qe) des).
Proof.
  induction 1 as [| e s des' sims' He Hrest IH]; [reflexivity |].
  cbn [filter]. unfold passes at 1. rewrite He.
  destruct (JS.gt (similarity s) (effectiveThreshold cfg)); cbn [List.length]; rewrite IH;
    reflexivity.
Qed.

Lemma sorted_across {A} (R : A -> A -> Prop) (l1 l2 : list A) (a b : A) :
  StronglySorted R (l1 ++ l2) -> In a l1 -> In b l2 -> R a b.
Proof.
  induction l1 as [| x l1 IH]; intros Hs Ha Hb; [destruct Ha |].
  cbn [List.app] in Hs. inversion Hs as [| ? ? Hs' Hx]; subst.
  destruct Ha as [-> | Ha].
  - rewrite Forall_forall in Hx. apply Hx. apply in_or_app. right. exact Hb.
  - apply IH; assumption.
Qed.

(** X1.  Nothing above the threshold is lost.  [rerankDocs] returns
    [docs[i]] for positions [picked]; when [maxResults] does not cut (it
    is [undefined], or at least the number of vectors), every position
    whose vector passes the filter is among them. *)
Theorem rerankDocs_returns_every_survivor :
  forall (cosineSimilarity computeDot : list JS.number -> list JS.number -> Result JS.number)
         (query : string) (docs : list Document) (embeddings : Embeddings)
         (w w' : World) (out : list (option Document)),
    docs <> [] ->
    rerankDocs cosineSimilarity computeDot query docs embeddings w = (Ok out, w') ->
    exists queryEmbedding docEmbeddings picked,
      embedQuery embeddings query = Ok queryEmbedding /\
      embedDocuments embeddings (map pageContent docs) = Ok docEmbeddings /\
      out = map (JS.index docs) picked /\
      (keepsAll (read (maxResults (config (this w)))) (List.length docEmbeddings) ->
       forall i e,
         nth_error docEmbeddings i = Some e ->
         passes cosineSimilarity computeDot (config (this w)) queryEmbedding e = true ->
         In i picked).
Proof.
  intros cs cd query docs embeddings w w' out Hne Hrun.
  destruct (rerankDocs_run cs cd query docs embeddings w w' out Hne Hrun)
    as (qe & des & sims & Hq & Hd & _ & Hidx & Hall & Hout).
  exists qe, des. eexists (map index _).
  split; [exact Hq |]. split; [exact Hd |].
  split; [rewrite map_map; exact Hout |].
  intros Hkeep i e Hn Hpass.
  destruct (scores_at _ _ _ Hall 0 Hidx i e Hn) as (sc & Hin & Hi & Hs).
  unfold passes in Hpass. rewrite Hs in Hpass.
  rewrite (slice0_all _ (List.length des)).
  - apply in_map_iff. exists sc. split; [exact Hi |].
    eapply Permutation_in; [apply Permutation_sym, sort_perm |].
    apply filter_In. split; [exact Hin | exact Hpass].
  - exact Hkeep.
  - rewrite (Permutation_length (sort_perm _ _)).
    rewrite (Forall2_length Hall). apply filter_length_le.
Qed.

Lemma rerankDocs_returns_every_survivor_witness :
  exists queryEmbedding docEmbeddings picked,
    embedQuery Fixture.embeddings "q" = Ok queryEmbedding /\
    embedDocuments Fixture.embeddings (map pageContent Sample.docs) = Ok docEmbeddings /\
    [Some (Fixture.doc "ccccccccc"); Some (Fixture.doc "bbbbb")]
    = map (JS.index Sample.docs) picked /\
    (keepsAll (read (maxResults (config (this Sample.lenient)))) (List.length docEmbeddings) ->
     forall i e,
       nth_error docEmbeddings i = Some e ->
       passes Fixture.cosineSimilarity Fixture.computeDot (config (this Sample.lenient))
         queryEmbedding e = true ->
       In i picked).
Proof.
  apply (rerankDocs_returns_every_survivor
           Fixture.cosineSimilarity Fixture.computeDot "q" Sample.docs
           Fixture.embeddings Sample.lenient
           (mkWorld (this Sample.lenient)
              [EmbedQuery "q"; EmbedDocuments ["a"; "bbbbb"; "ccccccccc"]])).
  - discriminate.
  - vm_compute. reflexivity.
Defined.

(** X2.  Truncation keeps the best.  A position that passes the filter
    but is not returned has a score no higher than that of any position
    that is returned. *)
Theorem rerankDocs_keeps_best :
  forall (cosineSimilarity computeDot : list JS.number -> list JS.number -> Result JS.number)
         (query : string) (docs : list Document) (embeddings : Embeddings)
         (w w' : World) (out : list (option Document)),
    docs <> [] ->
    rerankDocs cosineSimilarity computeDot query docs embeddings w = (Ok out, w') ->
    exists queryEmbedding docEmbeddings picked,
      embedQuery embeddings query = Ok queryEmbedding /\
      embedDocuments embeddings (map pageContent docs) = Ok docEmbeddings /\
      out = map (JS.index docs) picked /\
      (forall i j ei ej si sj,
          In i picked -> ~ In j picked ->
          nth_error docEmbeddings i = Some ei ->
          nth_error docEmbeddings j = Some ej ->
          similarityUnder cosineSimilarity computeDot (config (this w)) queryEmbedding ei
          = Ok (JS.Num si) ->
          similarityUnder cosineSimilarity computeDot (config (this w)) queryEmbedding ej
          = Ok (JS.Num sj) ->
          passes cosineSimilarity computeDot (config (this w)) queryEmbedding ej = true ->
          (sj <= si)%Q).
Proof.
  intros cs cd query docs embeddings w w' out Hne Hrun.
  destruct (rerankDocs_run cs cd query docs embeddings w w' out Hne Hrun)
    as (qe & des & sims & Hq & Hd & _ & Hidx & Hall & Hout).
  exists qe, des. eexists (map index _).
  split; [exact Hq |]. split; [exact Hd |].
  split; [rewrite map_map; exact Hout |].
  intros i j ei ej si sj Hi Hj Hni Hnj Hsi Hsj Hpass.
  set (thr := JS.or_else (read (rerankThreshold (config (this w)))) (JS.Num (3 # 10))) in *.
  set (l := JS.sort (fun a b => JS.sub (similarity b) (similarity a))
              (filter (fun sim => JS.gt (similarity sim) thr) sims)) in *.
  destruct (slice0_prefix (read (maxResults (config (this w)))) l) as [k Hk].
  rewrite Hk in Hi, Hj.
  (* the entry of the position that was returned *)
  apply in_map_iff in Hi. destruct Hi as (sci & Hidxi & Hini).
  assert (Hsci : similarity sci = JS.Num si).
  { assert (Hin : In sci sims).
    { apply In_firstn in Hini. eapply Permutation_in in Hini; [| apply sort_perm].
      apply filter_In in Hini. apply Hini. }
    destruct (scores_lookup _ _ _ Hall 0 Hidx sci Hin) as (_ & e & He & Hs).
    rewrite Nat.sub_0_r, Hidxi, Hni in He. injection He as <-.
    rewrite Hsi in Hs. injection Hs as Hs. symmetry. exact Hs. }
  (* the entry of the position that was cut *)
  destruct (scores_at _ _ _ Hall 0 Hidx j ej Hnj) as (scj & Hinj & Hidxj & Hs).
  assert (Hscj : similarity scj = JS.Num sj).
  { rewrite Hsj in Hs. injection Hs as Hs. symmetry. exact Hs. }
  assert (Hl : In scj l).
  { eapply Permutation_in; [apply Permutation_sym, sort_perm |].
    apply filter_In. split; [exact Hinj |].
    unfold passes in Hpass. rewrite Hsj in Hpass. rewrite Hscj. exact Hpass. }
  rewrite <- (firstn_skipn k l) in Hl. apply in_app_or in Hl.
  destruct Hl as [Hl | Hl].
  - exfalso. apply Hj. apply in_map_iff. exists scj. split; [exact Hidxj | exact Hl].
  - assert (Hs' : StronglySorted ranksBefore (firstn k l ++ skipn k l)).
    { rewrite firstn_skipn.
      apply (chain_ranked thr None sims 0 (List.length des) Hidx). }
    pose proof (ranksBefore_le _ _ (sorted_across _ _ _ _ _ Hs' Hini Hl)) as Hle.
    rewrite (score_Num _ _ Hsci), (score_Num _ _ Hscj) in Hle. exact Hle.
Qed.

(** Of two documents that tie at 0.5 the later one is cut at two
    results; nothing returned scores lower. *)
Lemma rerankDocs_keeps_best_witness :
  exists queryEmbedding docEmbeddings picked,
    embedQuery Fixture.embeddings "q" = Ok queryEmbedding /\
    embedDocuments Fixture.embeddings (map pageContent Sample.four) = Ok docEmbeddings /\
    [Some (Fixture.doc "ccccccccc"); Some (Fixture.doc "alpha")]
    = map (JS.index Sample.four) picked /\
    (forall i j ei ej si sj,
        In i picked -> ~ In j picked ->
        nth_error docEmbeddings i = Some ei ->
        nth_error docEmbeddings j = Some ej ->
        similarityUnder Fixture.cosineSimilarity Fixture.computeDot
          (config (this Fixture.world)) queryEmbedding ei = Ok (JS.Num si) ->
        similarityUnder Fixture.cosineSimilarity Fixture.computeDot
          (config (this Fixture.world)) queryEmbedding ej = Ok (JS.Num sj) ->
        passes Fixture.cosineSimilarity Fixture.computeDot
          (config (this Fixture.world)) queryEmbedding ej = true ->
        (sj <= si)%Q).
Proof.
  apply (rerankDocs_keeps_best
           Fixture.cosineSimilarity Fixture.computeDot "q" Sample.four
           Fixture.embeddings Fixture.world
           (mkWorld Fixture.agent
              [EmbedQuery "q"; EmbedDocuments ["alpha"; "ccccccccc"; "gamma"; "beta"]])).
  - discriminate.
  - vm_compute. reflexivity.
Defined.

(** X3.  How many documents come back.  The result has as many entries
    as [slice(0, maxResults)] leaves of the vectors that pass the filter:
    all of them for an [undefined] limit, the first [maxResults] for a
    non-negative one ([NaN] counting as 0, fractions truncated), all but
    the last [-maxResults] for a negative one. *)
Theorem rerankDocs_result_length :
  forall (cosineSimilarity computeDot : list JS.number -> list JS.number -> Result JS.number)
         (query : string) (docs : list Document) (embeddings : Embeddings)
         (w w' : World) (out : list (option Document)),
    docs <> [] ->
    rerankDocs cosineSimilarity computeDot query docs embeddings w = (Ok out, w') ->
    exists queryEmbedding docEmbeddings,
      embedQuery embeddings query = Ok queryEmbedding /\
      embedDocuments embeddings (map pageContent docs) = Ok docEmbeddings /\
      List.length out
      = sliceLength (read (maxResults (config (this w))))
          (List.length
             (filter (passes cosineSimilarity computeDot (config (this w)) queryEmbedding)
                docEmbeddings)).
Proof.
  intros cs cd query docs embeddings w w' out Hne Hrun.
  destruct (rerankDocs_run cs cd query docs embeddings w w' out Hne Hrun)
    as (qe & des & sims & Hq & Hd & _ & Hidx & Hall & Hout).
  exists qe, des. split; [exact Hq |]. split; [exact Hd |].
  rewrite Hout, length_map, slice0_length.
  rewrite (Permutation_length (sort_perm _ _)).
  rewrite <- (filter_scores_length cs cd (config (this w)) qe des sims Hall).
  reflexivity.
Qed.

Lemma rerankDocs_result_length_witness :
  exists queryEmbedding docEmbeddings,
    embedQuery Fixture.embeddings "q" = Ok queryEmbedding /\
    embedDocuments Fixture.embeddings (map pageContent Sample.four) = Ok docEmbeddings /\
    List.length [Some (Fixture.doc "ccccccccc"); Some (Fixture.doc "alpha")]
    = sliceLength (read (maxResults (config (this Fixture.world))))
        (List.length
           (filter
              (passes Fixture.cosineSimilarity Fixture.computeDot
                 (config (this Fixture.world)) queryEmbedding)
              docEmbeddings)).
Proof.
  apply (rerankDocs_result_length
           Fixture.cosineSimilarity Fixture.computeDot "q" Sample.four
           Fixture.embeddings Fixture.world
           (mkWorld Fixture.agent
              [EmbedQuery "q"; EmbedDocuments ["alpha"; "ccccccccc"; "gamma"; "beta"]])).
  - discriminate.
  - vm_compute. reflexivity.
Defined.

(** X4.  A falsy threshold is the default.  With a [rerankThreshold]
    that is [0], [NaN] or [undefined], [rerankDocs] answers as it does
    with a threshold of 0.3, all else being equal. *)
Theorem rerankDocs_falsy_threshold_is_default :
  forall (cosineSimilarity computeDot : list JS.number -> list JS.number -> Result JS.number)
         (query : string) (docs : list Document) (embeddings : Embeddings)
         (w w0 : World),
    JS.truthy (read (rerankThreshold (config (this w)))) = false ->
    read (rerankThreshold (config (this w0))) = Some (JS.Num (3 # 10)) ->
    read (similarityMeasure (config (this w))) = read (similarityMeasure (config (this w0))) ->
    read (maxResults (config (this w))) = read (maxResults (config (this w0))) ->
    fst (rerankDocs cosineSimilarity computeDot query docs embeddings w)
    = fst (rerankDocs cosineSimilarity computeDot query docs embeddings w0).
Proof.
  intros cs cd query docs embeddings w w0 Hfalsy Hdefault Hmeasure Hlimit.
  destruct docs as [| d0 docs']; [reflexivity |].
  rewrite !rerankDocs_unfold. cbv zeta.
  destruct (embedQuery embeddings query) as [qe | e]; [| reflexivity].
  destruct (embedDocuments embeddings (map pageContent (d0 :: docs'))) as [des | e];
    [| reflexivity].
  set (wa := mkWorld (this w)
               (trace w ++ [EmbedQuery query; EmbedDocuments (map pageContent (d0 :: docs'))])).
  set (wb := mkWorld (this w0)
               (trace w0 ++ [EmbedQuery query; EmbedDocuments (map pageContent (d0 :: docs'))])).
  pose proof (scores_congr cs cd qe des 0 wa wb Hmeasure) as Hc.
  pose proof (scores_world cs cd qe des 0 wa) as Ha.
  pose proof (scores_world cs cd qe des 0 wb) as Hb.
  destruct (mapM_from _ 0 des wa) as [[sa | ea] wa'];
    destruct (mapM_from _ 0 des wb) as [[sb | eb] wb'];
    cbn [fst snd] in *; subst wa' wb'; try discriminate.
  - injection Hc as ->. subst wa wb. cbn [this].
    rewrite (effectiveThreshold_falsy _ Hfalsy), Hlimit.
    unfold effectiveThreshold at 1. rewrite Hdefault. reflexivity.
  - injection Hc as ->. reflexivity.
Qed.

Lemma rerankDocs_falsy_threshold_is_default_witness :
  fst (rerankDocs Fixture.cosineSimilarity Fixture.computeDot "q" Sample.docs
         Fixture.embeddings Sample.lenient)
  = fst (rerankDocs Fixture.cosineSimilarity Fixture.computeDot "q" Sample.docs
           Fixture.embeddings Sample.standard).
Proof.
  apply (rerankDocs_falsy_threshold_is_default
           Fixture.cosineSimilarity Fixture.computeDot "q" Sample.docs
           Fixture.embeddings Sample.lenient Sample.standard).
  - reflexivity.
  - reflexivity.
  - reflexivity.
  - reflexivity.
Defined.

(** X5.  The embedding model is called once for the query and once for
    the whole batch.  On a non-empty array, once [embedQuery] has
    answered, the only effects of [rerankDocs] are the call of
    [embedQuery] on the query and the call of [embedDocuments] on the
    contents of all documents, in their order: whether
    [embedDocuments] then fails, a vector cannot be scored, or the
    ranking succeeds, nothing else is called and nothing is logged. *)
Theorem rerankDocs_calls_model_once :
  forall (cosineSimilarity computeDot : list JS.number -> list JS.number -> Result JS.number)
         (query : string) (docs : list Document) (embeddings : Embeddings) (w : World)
         (queryEmbedding : list JS.number),
    docs <> [] ->
    embedQuery embeddings query = Ok queryEmbedding ->
    snd (rerankDocs cosineSimilarity computeDot query docs embeddings w)
    = mkWorld (this w)
        (trace w ++ [EmbedQuery query; EmbedDocuments (map pageContent docs)]).
Proof.
  intros cs cd query docs embeddings w qe Hne Hq.
  destruct docs as [| d0 docs']; [contradiction |].
  rewrite rerankDocs_unfold. cbv zeta. rewrite Hq.
  destruct (embedDocuments embeddings (map pageContent (d0 :: docs'))) as [des | e];
    [| reflexivity].
  match goal with
  | |- context [mapM_from ?f 0 des ?w1] =>
      pose proof (scores_world cs cd qe des 0 w1) as Hw;
      destruct (mapM_from f 0 des w1) as [[sims | e] w2]
  end; cbn [snd] in *; exact Hw.
Qed.

(** A model whose vectors cannot be scored: the run fails, having made
    the two calls and nothing else. *)
Lemma rerankDocs_calls_model_once_witness :
  snd (rerankDocs Fixture.cosineSimilarity Fixture.computeDot "q" Sample.docs
         Sample.raggedEmbeddings Fixture.world)
  = mkWorld (this Fixture.world)
      (trace Fixture.world ++ [EmbedQuery "q"; EmbedDocuments (map pageContent Sample.docs)]).
Proof.
  apply (rerankDocs_calls_model_once
           Fixture.cosineSimilarity Fixture.computeDot "q" Sample.docs
           Sample.raggedEmbeddings Fixture.world [JS.Num 1]).
  - discriminate.
  - reflexivity.
Defined.

(** X6.  Failures of the embedding model and of the scoring are not
    absorbed.  On a non-empty array: when [embedQuery] fails,
    [rerankDocs] throws, and what it throws is the error of
    [embedQuery] or an error [embedDocuments] failed with; when only
    [embedDocuments] fails, it throws that error; and when both answer,
    it throws what the scoring of the first vector that cannot be scored
    throws. *)
Theorem rerankDocs_propagates_failures :
  forall (cosineSimilarity computeDot : list JS.number -> list JS.number -> Result JS.number)
         (query : string) (docs : list Document) (embeddings : Embeddings) (w : World),
    docs <> [] ->
    (forall e,
        embedQuery embeddings query = Throw e ->
        exists e',
          fst (rerankDocs cosineSimilarity computeDot query docs embeddings w) = Throw e' /\
          (e' = e \/ embedDocuments embeddings (map pageContent docs) = Throw e')) /\
    (forall queryEmbedding e,
        embedQuery embeddings query = Ok queryEmbedding ->
        embedDocuments embeddings (map pageContent docs) = Throw e ->
        fst (rerankDocs cosineSimilarity computeDot query docs embeddings w) = Throw e) /\
    (forall queryEmbedding scored v later e,
        embedQuery embeddings query = Ok queryEmbedding ->
        embedDocuments embeddings (map pageContent docs) = Ok (scored ++ v :: later) ->
        Forall
          (fun x =>
             exists s,
               similarityUnder cosineSimilarity computeDot (config (this w)) queryEmbedding x
               = Ok s)
          scored ->
        similarityUnder cosineSimilarity computeDot (config (this w)) queryEmbedding v
        = Throw e ->
        fst (rerankDocs cosineSimilarity computeDot query docs embeddings w) = Throw e).
Proof.
  intros cs cd query docs embeddings w Hne.
  destruct docs as [| d0 docs']; [contradiction |].
  rewrite rerankDocs_unfold. cbv zeta.
  split; [| split].
  - intros e ->. exists e. split; [reflexivity | left; reflexivity].
  - intros qe e -> ->. reflexivity.
  - intros qe scored v later e -> -> Hok Hv.
    match goal with
    | |- context [mapM_from ?f 0 ?l ?w1] =>
        pose proof (scores_throw cs cd qe scored v later e 0 w1 Hok Hv) as Ht;
        destruct (mapM_from f 0 l w1) as [[sims | e'] w2]
    end; cbn [fst] in *; [discriminate | injection Ht as ->; reflexivity].
Qed.

(** A model that is down, and a model whose vectors do not fit the
    query vector. *)
Lemma rerankDocs_propagates_failures_witness :
  (exists e',
      fst (rerankDocs Fixture.cosineSimilarity Fixture.computeDot "q" Sample.docs
             Fixture.brokenEmbeddings Fixture.world) = Throw e' /\
      (e' = Failure "embedQuery" \/
       embedDocuments Fixture.brokenEmbeddings (map pageContent Sample.docs) = Throw e')) /\
  fst (rerankDocs Fixture.cosineSimilarity Fixture.computeDot "q" Sample.docs
         Sample.raggedEmbeddings Fixture.world)
  = Throw (Failure "Arrays must be the same length").
Proof.
  split.
  - apply (proj1 (rerankDocs_propagates_failures
                    Fixture.cosineSimilarity Fixture.computeDot "q" Sample.docs
                    Fixture.brokenEmbeddings Fixture.world ltac:(discriminate))
             (Failure "embedQuery")).
    reflexivity.
  - apply (proj2 (proj2 (rerankDocs_propagates_failures
                           Fixture.cosineSimilarity Fixture.computeDot "q" Sample.docs
                           Sample.raggedEmbeddings Fixture.world ltac:(discriminate)))
             [JS.Num 1] [] [JS.Num 1; JS.Num 1] [[JS.Num 1; JS.Num 1]; [JS.Num 1; JS.Num 1]]
             (Failure "Arrays must be the same length")).
    + reflexivity.
    + reflexivity.
    + constructor.
    + reflexivity.
Defined.

(* ================================================================= *)
(** ** More on fetching and on the pipeline *)

Section FetchMore.

Variable axios_get : string -> Result Data.
Variable htmlToText : Data -> Result string.
Variable splitText : string -> Result (list string).

Let page := pageDocuments axios_get htmlToText splitText.

Lemma processUrl_full (u : string) (docs : list Document) (w : World) :
  processUrl axios_get htmlToText splitText u docs w
  = (Ok (docs ++ contribution page u),
     mkWorld (this w)
       (trace w
          ++ match page u with
             | Throw e => [ConsoleError ("Error processing " ++ u ++ ":")%string e]
             | Ok _ => []
             end)).
Proof.
  unfold processUrl, console_error, tryCatch, bind, lift, emit, ret, contribution, page.
  destruct (pageDocuments axios_get htmlToText splitText u) as [ds | e]; cbn [this trace].
  - rewrite app_nil_r. destruct w. reflexivity.
  - rewrite app_nil_r. reflexivity.
Qed.

Lemma promiseAll_full (urls : list string) (completion : list nat) :
  forall (docs : list Document) (w : World),
    promiseAll axios_get htmlToText splitText completion urls docs w
    = (Ok (docs
             ++ flat_map
                  (fun i =>
                     match JS.index urls i with
                     | Some u => contribution page u
                     | None => []
                     end)
                  completion),
       mkWorld (this w) (trace w ++ flat_map (failureLog page urls) completion)).
Proof.
  induction completion as [| i later IH]; intros docs w; cbn [promiseAll flat_map].
  - rewrite !app_nil_r. destruct w. reflexivity.
  - unfold failureLog at 1. destruct (JS.index urls i) as [u |].
    + unfold bind. rewrite processUrl_full, IH. cbn [this trace].
      rewrite <- !app_assoc. reflexivity.
    + rewrite IH. reflexivity.
Qed.

Lemma getDocumentsFromUrls_full (urls : list string) (completion : list nat) (w : World) :
  getDocumentsFromUrls axios_get htmlToText splitText urls completion w
  = (Ok (flat_map
           (fun i =>
              match JS.index urls i with
              | Some u => contribution page u
              | None => []
              end)
           completion),
     mkWorld (this w)
       (trace w ++ map HttpGet urls ++ flat_map (failureLog page urls) completion)).
Proof.
  unfold getDocumentsFromUrls, bind. rewrite requests_run, promiseAll_full.
  cbn [this trace List.app]. rewrite <- app_assoc. reflexivity.
Qed.

End FetchMore.

(** X9.  Where the documents come from.  Every document that
    [getDocumentsFromUrls] returns carries one of the given URLs; that
    page was fetched, converted and split without an exception; the
    content is one of the chunks the splitter made of the normalised
    text; and the title is the one extracted from that page. *)
Theorem getDocumentsFromUrls_provenance :
  forall (axios_get : string -> Result Data) (htmlToText : Data -> Result string)
         (splitText : string -> Result (list string))
         (urls : list string) (completion : list nat) (w w' : World)
         (docs : list Document) (d : Document),
    getDocumentsFromUrls axios_get htmlToText splitText urls completion w = (Ok docs, w') ->
    In d docs ->
    exists response raw chunks,
      In (url (metadata d)) urls /\
      axios_get (url (metadata d)) = Ok response /\
      htmlToText response = Ok raw /\
      splitText (Text.trim (Text.collapseWhiteSpace (Text.replaceNewlines raw))) = Ok chunks /\
      In (pageContent d) chunks /\
      extractTitle response (url (metadata d)) = Ok (title (metadata d)).
Proof.
  intros axios_get htmlToText splitText urls completion w w' docs d Hrun Hd.
  rewrite getDocumentsFromUrls_full in Hrun. injection Hrun as <- _.
  apply in_flat_map in Hd. destruct Hd as (i & _ & Hd).
  destruct (JS.index urls i) as [u |] eqn:Hu; [| destruct Hd].
  apply nth_error_In in Hu.
  unfold contribution, pageDocuments in Hd.
  destruct (axios_get u) as [response | e] eqn:Ha; [| destruct Hd].
  destruct (htmlToText response) as [raw | e] eqn:Hh; [| destruct Hd].
  destruct (splitText _) as [chunks | e] eqn:Hs; [| destruct Hd].
  destruct (extractTitle response u) as [t | e] eqn:Ht; [| destruct Hd].
  apply in_map_iff in Hd. destruct Hd as (chunk & <- & Hc).
  cbn [metadata url title pageContent].
  exists response, raw, chunks. repeat split; assumption.
Qed.

Lemma getDocumentsFromUrls_provenance_witness :
  exists response raw chunks,
    In (url (metadata (mkDocument "beta" (mkMetadata "One" "u1")))) ["u1"; "u2"] /\
    Fixture.axios_get (url (metadata (mkDocument "beta" (mkMetadata "One" "u1"))))
    = Ok response /\
    Fixture.htmlToText response = Ok raw /\
    Fixture.splitText (Text.trim (Text.collapseWhiteSpace (Text.replaceNewlines raw)))
    = Ok chunks /\
    In (pageContent (mkDocument "beta" (mkMetadata "One" "u1"))) chunks /\
    extractTitle response (url (metadata (mkDocument "beta" (mkMetadata "One" "u1"))))
    = Ok (title (metadata (mkDocument "beta" (mkMetadata "One" "u1")))).
Proof.
  apply (getDocumentsFromUrls_provenance
           Fixture.axios_get Fixture.htmlToText Fixture.splitText
           ["u1"; "u2"] [1; 0] Fixture.world
           (mkWorld Fixture.agent
              [HttpGet "u1"; HttpGet "u2";
               ConsoleError "Error processing u2:" (Failure "ECONNREFUSED")])
           Fixture.chunksOne).
  - vm_compute. reflexivity.
  - right. left. reflexivity.
Defined.

(** X10.  What fetching leaves on the trace.  [getDocumentsFromUrls]
    requests every URL once, in the order given, and then writes one
    console error for every callback that failed, in the order of
    completion; a page that was processed leaves nothing. *)
Theorem getDocumentsFromUrls_effects :
  forall (axios_get : string -> Result Data) (htmlToText : Data -> Result string)
         (splitText : string -> Result (list string))
         (urls : list string) (completion : list nat) (w : World),
    snd (getDocumentsFromUrls axios_get htmlToText splitText urls completion w)
    = mkWorld (this w)
        (trace w
           ++ map HttpGet urls
           ++ flat_map
                (failureLog (pageDocuments axios_get htmlToText splitText) urls)
                completion).
Proof.
  intros. rewrite getDocumentsFromUrls_full. reflexivity.
Qed.

(** X11.  A response whose body is not text yields no documents: with a
    parsed object or an empty body the callback throws before it pushes,
    whatever the converter and the splitter answer. *)
Theorem pageDocuments_non_text :
  forall (axios_get : string -> Result Data) (htmlToText : Data -> Result string)
         (splitText : string -> Result (list string)) (u : string) (response : Data),
    axios_get u = Ok response ->
    (forall body, response <> DText body) ->
    (exists e, pageDocuments axios_get htmlToText splitText u = Throw e) /\
    contribution (pageDocuments axios_get htmlToText splitText) u = [].
Proof.
  intros axios_get htmlToText splitText u response Ha Hn.
  assert (H : exists e, pageDocuments axios_get htmlToText splitText u = Throw e).
  { unfold pageDocuments. rewrite Ha.
    destruct (htmlToText response) as [raw | e]; [| eexists; reflexivity].
    destruct (splitText _) as [chunks | e]; [| eexists; reflexivity].
    destruct response as [body | | r]; [exfalso; eapply Hn; reflexivity | |];
      eexists; reflexivity. }
  split; [exact H |]. destruct H as [e He]. unfold contribution. rewrite He. reflexivity.
Qed.

(** The search endpoint's JSON answer, fetched as if it were a page. *)
Lemma pageDocuments_non_text_witness :
  (exists e,
      pageDocuments Fixture.axios_get Fixture.htmlToText Fixture.splitText
        Fixture.searchTarget = Throw e) /\
  contribution (pageDocuments Fixture.axios_get Fixture.htmlToText Fixture.splitText)
    Fixture.searchTarget = [].
Proof.
  apply (pageDocuments_non_text
           Fixture.axios_get Fixture.htmlToText Fixture.splitText Fixture.searchTarget
           (DObject (Some [mkResult "u1"; mkResult "u2"]))).
  - reflexivity.
  - discriminate.
Defined.

Lemma promiseAll_no_urls
      (axios_get : string -> Result Data) (htmlToText : Data -> Result string)
      (splitText : string -> Result (list string)) (completion : list nat) :
  forall (docs : list Document) (w : World),
    promiseAll axios_get htmlToText splitText completion [] docs w = (Ok docs, w).
Proof.
  induction completion as [| i later IH]; intros docs w; cbn [promiseAll].
  - reflexivity.
  - unfold JS.index. destruct i; cbn [nth_error]; apply IH.
Qed.

(** X7.  The synthesis stage runs on an empty retrieval.  When the web
    search yields the empty array, be it an outage that [searchWeb]
    absorbed or an empty answer, [search] fetches nothing, does not
    call the embedding model, and asks the chat model for the answer
    with an empty context. *)
Theorem search_answers_without_results :
  forall (cosineSimilarity computeDot : list JS.number -> list JS.number -> Result JS.number)
         (axios_get : string -> Result Data) (htmlToText : Data -> Result string)
         (splitText : string -> Result (list string))
         (URL_parse : string -> Result string)
         (URL_toString : URL -> string) (SEARXNG_URL : option string)
         (query : string) (llm : BaseChatModel) (embeddings : Embeddings)
         (history : list BaseMessage) (schedule : list string -> list nat)
         (w w1 : World) (searchQuery : string),
    invoke llm (rephrasePrompt query) = Ok searchQuery ->
    searchWeb axios_get URL_parse URL_toString SEARXNG_URL searchQuery
      (mkWorld (this w) (trace w ++ [Invoke (rephrasePrompt query)]))
    = (Ok (Some []), w1) ->
    search cosineSimilarity computeDot axios_get htmlToText splitText
      URL_parse URL_toString SEARXNG_URL query llm embeddings history schedule w
    = (invoke llm (answerPrompt query "" history),
       mkWorld (this w1) (trace w1 ++ [Invoke (answerPrompt query "" history)])).
Proof.
  intros cs cd axios_get htmlToText splitText URL_parse URL_toString SEARXNG_URL
         query llm embeddings history schedule w w1 searchQuery Hq Hs.
  unfold search. unfold bind at 1. unfold call at 1.
  unfold bind at 1. unfold emit at 1. unfold lift at 1. rewrite Hq.
  unfold bind at 1. unfold retrieve. unfold bind at 1. rewrite Hs.
  unfold bind at 1. unfold lift at 1. cbn [resultUrls map].
  unfold bind at 1. unfold getDocumentsFromUrls. cbn [forEachM].
  unfold bind at 1. unfold ret at 1. rewrite promiseAll_no_urls.
  cbn [rerankDocs List.length Nat.eqb]. unfold ret at 1.
  unfold bind at 1. unfold context. cbn [mapM_from]. unfold bind at 1. unfold ret at 1 2.
  cbn [JS.join]. unfold call, bind, emit, lift. reflexivity.
Qed.

(** The search endpoint is down: the answer is asked for with an empty
    context, and nothing was fetched or embedded. *)
Lemma search_answers_without_results_witness :
  search Fixture.cosineSimilarity Fixture.computeDot Fixture.axios_get_down
    Fixture.htmlToText Fixture.splitText Fixture.URL_parse Fixture.URL_toString
    Fixture.SEARXNG_URL "q?" Fixture.llm Fixture.embeddings [] (fun _ => [])
    Fixture.world
  = (invoke Fixture.llm (answerPrompt "q?" "" []),
     mkWorld Fixture.agent
       ([Invoke (rephrasePrompt "q?");
         HttpGet Fixture.searchTarget;
         ConsoleError "Search error:" (Failure "ECONNREFUSED")]
          ++ [Invoke (answerPrompt "q?" "" [])])).
Proof.
  apply (search_answers_without_results
           Fixture.cosineSimilarity Fixture.computeDot Fixture.axios_get_down
           Fixture.htmlToText Fixture.splitText Fixture.URL_parse Fixture.URL_toString
           Fixture.SEARXNG_URL "q?" Fixture.llm Fixture.embeddings [] (fun _ => [])
           Fixture.world
           (mkWorld Fixture.agent
              [Invoke (rephrasePrompt "q?");
               HttpGet Fixture.searchTarget;
               ConsoleError "Search error:" (Failure "ECONNREFUSED")])
           "rocq").
  - reflexivity.
  - reflexivity.
Defined.

Lemma render_undefined (docs : list (option Document)) :
  In None docs ->
  forall (i : nat) (w : World),
    mapM_from (fun doc i => lift (renderDoc doc i)) i docs w
    = (Throw (TypeError "Cannot read properties of undefined (reading 'metadata')"), w).
Proof.
  induction docs as [| d rest IH]; intros Hin i w; [destruct Hin |].
  cbn [mapM_from]. unfold bind at 1. unfold lift at 1.
  destruct d as [d |].
  - cbn [renderDoc]. destruct Hin as [Hd | Hin]; [discriminate |].
    unfold bind. rewrite (IH Hin). reflexivity.
  - reflexivity.
Qed.

(** X8.  An [undefined] entry stops the synthesis.  When the retrieval
    stage hands over an array with an [undefined] element, [search]
    throws a [TypeError] while assembling the context and the chat model
    is not asked for an answer. *)
Theorem search_undefined_document_throws :
  forall (cosineSimilarity computeDot : list JS.number -> list JS.number -> Result JS.number)
         (axios_get : string -> Result Data) (htmlToText : Data -> Result string)
         (splitText : string -> Result (list string))
         (URL_parse : string -> Result string)
         (URL_toString : URL -> string) (SEARXNG_URL : option string)
         (query : string) (llm : BaseChatModel) (embeddings : Embeddings)
         (history : list BaseMessage) (schedule : list string -> list nat)
         (w w1 : World) (searchQuery : string) (docs : list (option Document)),
    invoke llm (rephrasePrompt query) = Ok searchQuery ->
    retrieve cosineSimilarity computeDot axios_get htmlToText splitText
      URL_parse URL_toString SEARXNG_URL embeddings schedule searchQuery
      (mkWorld (this w) (trace w ++ [Invoke (rephrasePrompt query)]))
    = (Ok docs, w1) ->
    In None docs ->
    search cosineSimilarity computeDot axios_get htmlToText splitText
      URL_parse URL_toString SEARXNG_URL query llm embeddings history schedule w
    = (Throw (TypeError "Cannot read properties of undefined (reading 'metadata')"), w1).
Proof.
  intros cs cd axios_get htmlToText splitText URL_parse URL_toString SEARXNG_URL
         query llm embeddings history schedule w w1 searchQuery docs Hq Hr Hin.
  unfold search. unfold bind at 1. unfold call at 1.
  unfold bind at 1. unfold emit at 1. unfold lift at 1. rewrite Hq.
  unfold bind at 1. rewrite Hr.
  unfold bind at 1. unfold context. unfold bind at 1.
  rewrite (render_undefined docs Hin). reflexivity.
Qed.

(** A model that answers with one vector too many makes the pipeline
    pick a position beyond the documents. *)
Lemma search_undefined_document_throws_witness :
  search Fixture.cosineSimilarity Fixture.computeDot Fixture.axios_get
    Fixture.htmlToText Fixture.splitText Fixture.URL_parse Fixture.URL_toString
    Fixture.SEARXNG_URL "q?" Fixture.llm Sample.surplusEmbeddings [] (fun _ => [0; 1])
    Fixture.world
  = (Throw (TypeError "Cannot read properties of undefined (reading 'metadata')"),
     mkWorld Fixture.agent Sample.retrieved).
Proof.
  apply (search_undefined_document_throws
           Fixture.cosineSimilarity Fixture.computeDot Fixture.axios_get
           Fixture.htmlToText Fixture.splitText Fixture.URL_parse Fixture.URL_toString
           Fixture.SEARXNG_URL "q?" Fixture.llm Sample.surplusEmbeddings []
           (fun _ => [0; 1]) Fixture.world
           (mkWorld Fixture.agent Sample.retrieved)
           "rocq"
           [None; Some (mkDocument "alpha" (mkMetadata "One" "u1"))]).
  - reflexivity.
  - vm_compute. reflexivity.
  - left. reflexivity.
Defined.

(** X12.  Which measure an agent scores with.  An agent built without a
    configuration, or from one that does not own [similarityMeasure] or
    gives it as [cosine], scores with the cosine similarity; one built
    with [dot], and also one built with the property given as
    [undefined], scores with the dot product.  Scoring has no effect. *)
Theorem computeSimilarity_after_construction :
  forall (cosineSimilarity computeDot : list JS.number -> list JS.number -> Result JS.number)
         (given : option SearchConfig) (x y : list JS.number) (events : list Event),
    computeSimilarity cosineSimilarity computeDot x y (mkWorld (constructor given) events)
    = (match given with
       | None => cosineSimilarity x y
       | Some c =>
           match similarityMeasure c with
           | Absent => cosineSimilarity x y
           | Own (Some cosine) => cosineSimilarity x y
           | Own (Some dot) => computeDot x y
           | Own None => computeDot x y
           end
       end,
       mkWorld (constructor given) events).
Proof.
  intros cs cd given x y events. rewrite computeSimilarity_run.
  unfold similarityUnder. destruct given as [c |]; [| reflexivity].
  destruct c as [sm th mr]. destruct sm as [| [[|] |]]; reflexivity.
Qed.

(** X13.  The stored configuration is complete.  Whatever the caller
    passes, the configuration of the new agent owns all three
    properties; so building an agent from the configuration of another
    gives that configuration again, and the defaults never come back
    for a property once it is owned. *)
Theorem constructor_config_complete :
  forall (given : option SearchConfig),
    (exists v t m, config (constructor given) = mkConfig (Own v) (Own t) (Own m)) /\
    config (constructor (Some (config (constructor given)))) = config (constructor given).
Proof.
  intro given. destruct given as [[sm th mr] |].
  - destruct sm, th, mr; (split; [do 3 eexists; reflexivity | reflexivity]).
  - split; [do 3 eexists; reflexivity | reflexivity].
Qed.

(* ================================================================= *)
(** ** Normalisation of the extracted text *)

Lemma whiteSpace_13 (c : ascii) : nat_of_ascii c = 13 -> JS.isWhiteSpace c = true.
Proof. intro H. unfold JS.isWhiteSpace. rewrite H. reflexivity. Qed.

Lemma whiteSpace_10 (c : ascii) : nat_of_ascii c = 10 -> JS.isWhiteSpace c = true.
Proof. intro H. unfold JS.isWhiteSpace. rewrite H. reflexivity. Qed.

Lemma space_not_newline (c : ascii) :
  Ascii.eqb c " " = true -> Nat.eqb (nat_of_ascii c) 13 = false /\ Nat.eqb (nat_of_ascii c) 10 = false.
Proof. intro H. apply Ascii.eqb_eq in H. subst c. split; reflexivity. Qed.

Lemma not_whiteSpace_not_newline (c : ascii) :
  JS.isWhiteSpace c = false ->
  Nat.eqb (nat_of_ascii c) 13 = false /\ Nat.eqb (nat_of_ascii c) 10 = false.
Proof.
  intro H. split.
  - destruct (Nat.eqb_spec (nat_of_ascii c) 13) as [E | _]; [| reflexivity].
    rewrite (whiteSpace_13 _ E) in H. discriminate.
  - destruct (Nat.eqb_spec (nat_of_ascii c) 10) as [E | _]; [| reflexivity].
    rewrite (whiteSpace_10 _ E) in H. discriminate.
Qed.

(** [replaceNewlines], one code unit at a time. *)
Lemma replaceNewlines_step (c : ascii) (rest : string) :
  Text.replaceNewlines (String c rest)
  = if Nat.eqb (nat_of_ascii c) 13
    then match rest with
         | String c2 rest2 =>
             if Nat.eqb (nat_of_ascii c2) 10
             then String Text.space (Text.replaceNewlines rest2)
             else String Text.space (Text.replaceNewlines rest)
         | EmptyString => String Text.space EmptyString
         end
    else if Nat.eqb (nat_of_ascii c) 10
         then String Text.space (Text.replaceNewlines rest)
         else String c (Text.replaceNewlines rest).
Proof.
  cbn [Text.replaceNewlines].
  destruct (nat_of_ascii c) as [| n]; [reflexivity |].
  do 13 (destruct n as [| n]; [destruct rest; reflexivity |]).
  destruct rest; reflexivity.
Qed.

Lemma collapse_space (b : bool) (s : string) :
  Text.collapseFrom b (String Text.space s)
  = if b then Text.collapseFrom true s else String Text.space (Text.collapseFrom true s).
Proof. reflexivity. Qed.

Lemma collapse_replaceNewlines (s : string) :
  (forall b, Text.collapseFrom b (Text.replaceNewlines s) = Text.collapseFrom b s) /\
  (forall c b,
      Text.collapseFrom b (Text.replaceNewlines (String c s))
      = Text.collapseFrom b (String c s)).
Proof.
  induction s as [| c2 s [IH1 IH2]].
  - split; [reflexivity |]. intros c b. rewrite replaceNewlines_step.
    destruct (Nat.eqb_spec (nat_of_ascii c) 13) as [E13 | _].
    + cbn [Text.collapseFrom]. rewrite (whiteSpace_13 _ E13). reflexivity.
    + destruct (Nat.eqb_spec (nat_of_ascii c) 10) as [E10 | _].
      * cbn [Text.collapseFrom]. rewrite (whiteSpace_10 _ E10). reflexivity.
      * reflexivity.
  - split; [apply IH2 |]. intros c b. rewrite replaceNewlines_step.
    destruct (Nat.eqb_spec (nat_of_ascii c) 13) as [E13 | _].
    + destruct (Nat.eqb_spec (nat_of_ascii c2) 10) as [E10 | _].
      * rewrite collapse_space, IH1. cbn [Text.collapseFrom].
        rewrite (whiteSpace_13 _ E13), (whiteSpace_10 _ E10).
        destruct b; reflexivity.
      * rewrite collapse_space, IH2.
        change (Text.collapseFrom b (String c (String c2 s)))
          with (if JS.isWhiteSpace c
                then if b then Text.collapseFrom true (String c2 s)
                     else String Text.space (Text.collapseFrom true (String c2 s))
                else String c (Text.collapseFrom false (String c2 s))).
        rewrite (whiteSpace_13 _ E13). reflexivity.
    + destruct (Nat.eqb_spec (nat_of_ascii c) 10) as [E10 | _].
      * rewrite collapse_space, IH2.
        change (Text.collapseFrom b (String c (String c2 s)))
          with (if JS.isWhiteSpace c
                then if b then Text.collapseFrom true (String c2 s)
                     else String Text.space (Text.collapseFrom true (String c2 s))
                else String c (Text.collapseFrom false (String c2 s))).
        rewrite (whiteSpace_10 _ E10). reflexivity.
      * change (Text.collapseFrom b (String c (Text.replaceNewlines (String c2 s))))
          with (if JS.isWhiteSpace c
                then if b then Text.collapseFrom true (Text.replaceNewlines (String c2 s))
                     else String Text.space
                            (Text.collapseFrom true (Text.replaceNewlines (String c2 s)))
                else String c (Text.collapseFrom false (Text.replaceNewlines (String c2 s)))).
        rewrite !IH2. reflexivity.
Qed.

(** X14.  The first replacement is subsumed by the second: collapsing
    white space gives the same text whether or not the line breaks were
    replaced by spaces before. *)
Theorem newline_replacement_subsumed :
  forall (raw : string),
    Text.collapseWhiteSpace (Text.replaceNewlines raw) = Text.collapseWhiteSpace raw.
Proof.
  intro raw. unfold Text.collapseWhiteSpace.
  destruct (collapse_replaceNewlines raw) as [H _].
  apply H.
Qed.

Lemma collapse_spaced (s : string) :
  forall b, spacedFrom b (Text.collapseFrom b s) = true.
Proof.
  induction s as [| c s IH]; intro b; cbn [Text.collapseFrom].
  - reflexivity.
  - destruct (JS.isWhiteSpace c) eqn:W.
    + destruct b; [apply IH |].
      change (spacedFrom false (String Text.space (Text.collapseFrom true s)))
        with (spacedFrom true (Text.collapseFrom true s)).
      apply IH.
    + cbn [spacedFrom]. rewrite W. apply IH.
Qed.

Lemma trimStart_spaced (s : string) :
  forall b, spacedFrom b s = true -> spacedFrom true (Text.trimStart s) = true.
Proof.
  induction s as [| c s IH]; intros b H; cbn [Text.trimStart].
  - reflexivity.
  - cbn [spacedFrom] in H. destruct (JS.isWhiteSpace c) eqn:W.
    + apply andb_true_iff in H. destruct H as [_ H]. apply (IH true H).
    + cbn [spacedFrom]. rewrite W. exact H.
Qed.

Lemma trimEnd_spaced (s : string) :
  forall b, spacedFrom b s = true -> spacedFrom b (Text.trimEnd s) = true.
Proof.
  induction s as [| c s IH]; intros b H; cbn [Text.trimEnd].
  - reflexivity.
  - cbn [spacedFrom] in H. destruct (JS.isWhiteSpace c) eqn:W.
    + apply andb_true_iff in H. destruct H as [Hc H].
      specialize (IH true H).
      destruct (Text.trimEnd s) as [| a r]; [reflexivity |].
      cbn [spacedFrom] in IH |- *. rewrite W, Hc. exact IH.
    + specialize (IH false H).
      destruct (Text.trimEnd s) as [| a r].
      * cbn [spacedFrom]. rewrite W. reflexivity.
      * cbn [spacedFrom] in IH |- *. rewrite W. exact IH.
Qed.

Lemma trimEnd_endsClean (s : string) : endsClean (Text.trimEnd s) = true.
Proof.
  induction s as [| c s IH]; cbn [Text.trimEnd].
  - reflexivity.
  - destruct (Text.trimEnd s) as [| a r].
    + destruct (JS.isWhiteSpace c) eqn:W; [reflexivity |].
      cbn [endsClean]. rewrite W. reflexivity.
    + exact IH.
Qed.

Lemma normalise_normal (raw : string) :
  normalForm (Text.trim (Text.collapseWhiteSpace (Text.replaceNewlines raw))) = true.
Proof.
  unfold normalForm, Text.trim, Text.collapseWhiteSpace.
  apply andb_true_iff. split.
  - apply trimEnd_spaced. eapply trimStart_spaced. apply collapse_spaced.
  - apply trimEnd_endsClean.
Qed.

(** X15.  The text handed to the splitter is in normal form: its only
    white space is single spaces between other code units, none at the
    start and none at the end. *)
Theorem normalised_text_normal_form :
  forall (raw : string),
    normalForm (Text.trim (Text.collapseWhiteSpace (Text.replaceNewlines raw))) = true.
Proof.
  intro raw. unfold normalForm, Text.trim, Text.collapseWhiteSpace.
  apply andb_true_iff. split.
  - apply trimEnd_spaced. apply (trimStart_spaced _ false). apply collapse_spaced.
  - apply trimEnd_endsClean.
Qed.

Lemma spaced_weaken (s : string) : spacedFrom true s = true -> spacedFrom false s = true.
Proof.
  destruct s as [| c s]; [reflexivity |]. cbn [spacedFrom].
  destruct (JS.isWhiteSpace c); [| trivial].
  intro H. apply andb_true_iff in H. destruct H as [H _].
  apply andb_true_iff in H. destruct H as [_ H]. discriminate.
Qed.

Lemma spaced_replaceNewlines (s : string) :
  forall b, spacedFrom b s = true -> Text.replaceNewlines s = s.
Proof.
  induction s as [| c s IH]; intros b H; [reflexivity |].
  rewrite replaceNewlines_step. cbn [spacedFrom] in H.
  destruct (JS.isWhiteSpace c) eqn:W.
  - apply andb_true_iff in H. destruct H as [Hc H].
    apply andb_true_iff in Hc. destruct Hc as [Hc _].
    destruct (space_not_newline _ Hc) as [-> ->]. rewrite (IH true H). reflexivity.
  - destruct (not_whiteSpace_not_newline _ W) as [-> ->]. rewrite (IH false H). reflexivity.
Qed.

Lemma spaced_collapse (s : string) :
  forall b, spacedFrom b s = true -> Text.collapseFrom b s = s.
Proof.
  induction s as [| c s IH]; intros b H; [reflexivity |].
  cbn [spacedFrom] in H. cbn [Text.collapseFrom].
  destruct (JS.isWhiteSpace c) eqn:W.
  - apply andb_true_iff in H. destruct H as [Hc H].
    apply andb_true_iff in Hc. destruct Hc as [Hc Hb].
    apply negb_true_iff in Hb. subst b.
    apply Ascii.eqb_eq in Hc. subst c. rewrite (IH true H). reflexivity.
  - rewrite (IH false H). reflexivity.
Qed.

Lemma spaced_trimStart (s : string) : spacedFrom true s = true -> Text.trimStart s = s.
Proof.
  destruct s as [| c s]; [reflexivity |]. cbn [spacedFrom Text.trimStart].
  destruct (JS.isWhiteSpace c); [| reflexivity].
  intro H. apply andb_true_iff in H. destruct H as [H _].
  apply andb_true_iff in H. destruct H as [_ H]. discriminate.
Qed.

Lemma clean_trimEnd (s : string) : endsClean s = true -> Text.trimEnd s = s.
Proof.
  induction s as [| c s IH]; intro H; [reflexivity |].
  cbn [Text.trimEnd]. destruct s as [| a r].
  - cbn [Text.trimEnd]. cbn [endsClean] in H. apply negb_true_iff in H. rewrite H. reflexivity.
  - change (endsClean (String c (String a r))) with (endsClean (String a r)) in H.
    rewrite (IH H). reflexivity.
Qed.

Lemma normal_fixed (t : string) :
  normalForm t = true ->
  Text.trim (Text.collapseWhiteSpace (Text.replaceNewlines t)) = t.
Proof.
  intro H. unfold normalForm in H. apply andb_true_iff in H. destruct H as [Hs Hc].
  rewrite (spaced_replaceNewlines t true Hs).
  unfold Text.collapseWhiteSpace. rewrite (spaced_collapse t false (spaced_weaken t Hs)).
  unfold Text.trim. rewrite (spaced_trimStart t Hs). apply clean_trimEnd. exact Hc.
Qed.

(** X16.  A text in normal form is left as it is. *)
Theorem normal_form_unchanged :
  forall (t : string),
    normalForm t = true ->
    Text.trim (Text.collapseWhiteSpace (Text.replaceNewlines t)) = t.
Proof.
  intros t H. unfold normalForm in H. apply andb_true_iff in H. destruct H as [Hs Hc].
  rewrite (spaced_replaceNewlines t true Hs).
  unfold Text.collapseWhiteSpace. rewrite (spaced_collapse t false (spaced_weaken t Hs)).
  unfold Text.trim. rewrite (spaced_trimStart t Hs). apply clean_trimEnd. exact Hc.
Qed.

Lemma normal_form_unchanged_witness :
  Text.trim (Text.collapseWhiteSpace (Text.replaceNewlines "alpha beta gamma"))
  = "alpha beta gamma".
Proof.
  apply (normal_form_unchanged "alpha beta gamma"). reflexivity.
Defined.

(** X17.  Normalising is idempotent. *)
Theorem normalisation_idempotent :
  forall (raw : string),
    Text.trim
      (Text.collapseWhiteSpace
         (Text.replaceNewlines
            (Text.trim (Text.collapseWhiteSpace (Text.replaceNewlines raw)))))
    = Text.trim (Text.collapseWhiteSpace (Text.replaceNewlines raw)).
Proof.
  intro raw. apply normal_fixed. apply normalise_normal.
Qed.

Lemma blank_trimStart (s : string) :
  forall b,
    Regex.all JS.isWhiteSpace s = true ->
    Text.trimStart (Text.collapseFrom b s) = EmptyString.
Proof.
  induction s as [| c s IH]; intros b H; [reflexivity |].
  cbn [Regex.all] in H. apply andb_true_iff in H. destruct H as [Hc H].
  cbn [Text.collapseFrom]. rewrite Hc.
  destruct b; [apply IH; exact H |].
  change (Text.trimStart (String Text.space (Text.collapseFrom true s)))
    with (Text.trimStart (Text.collapseFrom true s)).
  apply IH. exact H.
Qed.

(** X18.  A text of white space only normalises to the empty text. *)
Theorem blank_text_normalises_to_empty :
  forall (raw : string),
    Regex.all JS.isWhiteSpace raw = true ->
    Text.trim (Text.collapseWhiteSpace (Text.replaceNewlines raw)) = EmptyString.
Proof.
  intros raw H. unfold Text.trim, Text.collapseWhiteSpace.
  rewrite (proj1 (collapse_replaceNewlines raw)), (blank_trimStart raw false H).
  reflexivity.
Qed.

Lemma blank_text_normalises_to_empty_witness :
  Text.trim
    (Text.collapseWhiteSpace (Text.replaceNewlines ("  " ++ newline ++ " ")%string))
  = EmptyString.
Proof.
  apply (blank_text_normalises_to_empty ("  " ++ newline ++ " ")%string). reflexivity.
Defined.

(* ================================================================= *)
(** ** What a match of the title pattern is *)

Section TitleMore.

Let closing (group s4 : string) : option string :=
  match Regex.literal "</title>" s4 with
  | Some _ => Some group
  | None => None
  end.

Let opening (s2 : string) : option string :=
  match Regex.literal ">" s2 with
  | None => None
  | Some s3 => Regex.dotStarLazy closing "" s3
  end.

Lemma literal_Some (p : string) :
  forall s r, Regex.literal p s = Some r -> s = (p ++ r)%string.
Proof.
  induction p as [| x p IH]; intros s r H; cbn [Regex.literal] in H.
  - injection H as ->. reflexivity.
  - destruct s as [| y s]; [discriminate |].
    destruct (Ascii.eqb_spec x y) as [<- | _]; [| discriminate].
    cbn [String.append]. f_equal. apply IH. exact H.
Qed.

Lemma literal_refl (p r : string) : Regex.literal p (p ++ r) = Some r.
Proof.
  induction p as [| x p IH]; cbn [Regex.literal String.append].
  - destruct r; reflexivity.
  - rewrite Ascii.eqb_refl. exact IH.
Qed.

Lemma occurs_split (p s : string) :
  Regex.occurs p s = true -> exists x y, s = (x ++ p ++ y)%string.
Proof.
  induction s as [| c s IH]; cbn [Regex.occurs]; intro H.
  - destruct (Regex.literal p "") as [r |] eqn:E; [| discriminate].
    exists "", r. exact (literal_Some p _ _ E).
  - destruct (Regex.literal p (String c s)) as [r |] eqn:E.
    + exists "", r. exact (literal_Some p _ _ E).
    + destruct (IH H) as (x & y & ->). exists (String c x), y. reflexivity.
Qed.

Lemma lazy_Some (s : string) :
  forall captured g,
    Regex.dotStarLazy closing captured s = Some g ->
    exists t b,
      g = (captured ++ t)%string /\
      s = (t ++ "</title>" ++ b)%string /\
      Regex.all notTerminator t = true /\
      (forall t1 t2,
          t = (t1 ++ t2)%string -> t2 <> EmptyString ->
          Regex.literal "</title>" (t2 ++ "</title>" ++ b) = None).
Proof.
  induction s as [| c s IH]; intros captured g H.
  - discriminate H.
  - cbn [Regex.dotStarLazy] in H. unfold closing at 1 in H.
    destruct (Regex.literal "</title>" (String c s)) as [b |] eqn:E.
    + injection H as <-. exists "", b.
      split; [symmetry; apply append_nil_r |].
      split; [exact (literal_Some "</title>" _ _ E) |].
      split; [reflexivity |].
      intros t1 t2 Ht Hne. destruct t1; destruct t2; try discriminate. contradiction.
    + destruct (JS.isLineTerminator c) eqn:L; [discriminate |].
      destruct (IH _ _ H) as (t & b & Hg & Hs & Hall & Hmin).
      exists (String c t), b.
      split; [rewrite Hg, append_assoc; reflexivity |].
      split; [rewrite Hs; reflexivity |].
      split; [cbn [Regex.all]; unfold notTerminator at 1; rewrite L; exact Hall |].
      intros t1 t2 Ht Hne. destruct t1 as [| c1 t1].
      * cbn [String.append] in Ht. subst t2. rewrite Hs in E. exact E.
      * cbn [String.append] in Ht. injection Ht as _ Ht. apply (Hmin t1 t2 Ht Hne).
Qed.

Lemma greedy_Some (s : string) :
  forall g,
    Regex.dotStarGreedy opening s = Some g ->
    exists a r,
      s = (a ++ r)%string /\ Regex.all notTerminator a = true /\ opening r = Some g.
Proof.
  induction s as [| c s IH]; intros g H; cbn [Regex.dotStarGreedy] in H.
  - exists "", "". repeat split. exact H.
  - destruct (JS.isLineTerminator c) eqn:L.
    + exists "", (String c s). repeat split. exact H.
    + destruct (Regex.dotStarGreedy opening s) as [g0 |].
      * injection H as <-. destruct (IH g0 eq_refl) as (a & r & -> & Hall & Hr).
        exists (String c a), r. repeat split; [| exact Hr].
        cbn [Regex.all]. unfold notTerminator at 1. rewrite L. exact Hall.
      * exists "", (String c s). repeat split. exact H.
Qed.

Lemma matchHere_Some (s g : string) :
  Regex.matchHere s = Some g ->
  exists a b,
    s = ("<title" ++ a ++ ">" ++ g ++ "</title>" ++ b)%string /\
    Regex.all notTerminator a = true /\
    Regex.all notTerminator g = true /\
    Regex.occurs "</title>" g = false.
Proof.
  intro H. rewrite matchHere_unfold in H.
  destruct (Regex.literal "<title" s) as [s1 |] eqn:E1; [| discriminate].
  apply literal_Some in E1.
  apply greedy_Some in H. destruct H as (a & r & Hs1 & Ha & Hr).
  unfold opening in Hr.
  destruct (Regex.literal ">" r) as [s3 |] eqn:E3; [| discriminate].
  apply literal_Some in E3.
  apply lazy_Some in Hr. destruct Hr as (t & b & Hg & Hs3 & Ht & Hmin).
  cbn [String.append] in Hg. subst g.
  exists a, b. split; [| split; [exact Ha | split; [exact Ht |]]].
  - rewrite E1, Hs1, E3, Hs3. reflexivity.
  - destruct (Regex.occurs "</title>" t) eqn:O; [| reflexivity].
    exfalso. apply occurs_split in O. destruct O as (x & y & Hxy).
    assert (Hnone := Hmin x ("</title>" ++ y)%string Hxy ltac:(discriminate)).
    rewrite append_assoc, literal_refl in Hnone. discriminate.
Qed.

Lemma titleGroup_Some (s : string) :
  forall g,
    Regex.titleGroup s = Some g ->
    exists pre rest, s = (pre ++ rest)%string /\ Regex.matchHere rest = Some g.
Proof.
  induction s as [| c s IH]; intros g H; cbn [Regex.titleGroup] in H.
  - destruct (Regex.matchHere "") as [g0 |] eqn:E; [| discriminate].
    injection H as <-. exists "", "". split; [reflexivity | exact E].
  - destruct (Regex.matchHere (String c s)) as [g0 |] eqn:E.
    + injection H as <-. exists "", (String c s). split; [reflexivity | exact E].
    + destruct (IH g H) as (pre & rest & -> & Hm).
      exists (String c pre), rest. split; [reflexivity | exact Hm].
Qed.

End TitleMore.

(** X19.  What a title can be.  The title of a text response is the URL,
    or it is a non-empty text that stands in the page between a [>] and
    a [</title>], on the line of a preceding [<title]; it holds no line
    terminator and no [</title>]. *)
Theorem extractTitle_url_or_title_text :
  forall (html url : string),
    exists t,
      extractTitle (DText html) url = Ok t /\
      (t = url \/
       (t <> EmptyString /\
        exists pre a post,
          html = (pre ++ "<title" ++ a ++ ">" ++ t ++ "</title>" ++ post)%string /\
          Regex.all notTerminator a = true /\
          Regex.all notTerminator t = true /\
          Regex.occurs "</title>" t = false)).
Proof.
  intros html url.
  unfold extractTitle.
  destruct (Regex.titleGroup html) as [g |] eqn:E.
  - destruct g as [| c g].
    + exists url. split; [reflexivity | left; reflexivity].
    + exists (String c g). split; [reflexivity |]. right. split; [discriminate |].
      apply titleGroup_Some in E. destruct E as (pre & rest & -> & Hm).
      apply matchHere_Some in Hm. destruct Hm as (a & b & -> & Ha & Hg & Ho).
      exists pre, a, b. repeat split; assumption.
  - exists url. split; [reflexivity | left; reflexivity].
Qed.

(* ================================================================= *)
(** ** Title extraction against the first title element *)

Section TitleElement.

Let closing (group s4 : string) : option string :=
  match Regex.literal "</title>" s4 with
  | Some _ => Some group
  | None => None
  end.

Let opening (s2 : string) : option string :=
  match Regex.literal ">" s2 with
  | None => None
  | Some s3 => Regex.dotStarLazy closing "" s3
  end.











End TitleElement.

(** A line break inside the tag, before its [>], is not matched either. *)
Example extractTitle_newline_in_tag :
  extractTitle (DText ("<title" ++ newline ++ "lang=en>Hello</title>")) "https://x.test/a"
  = Ok "https://x.test/a" /\
  firstTitleElement ("<title" ++ newline ++ "lang=en>Hello</title>") = Some "Hello".
Proof. split; vm_compute; reflexivity. Qed.


